(** * W-2 to Form 1040 mapping: a shallow embedding of
      [src/lib/w2-to-1040-mapping.ts] and the properties of its three
      entry points [mapW2ToForm1040], [createMappingSummary] and
      [validateW2DataForMapping].

    JavaScript numbers are IEEE 754 binary64 values; they are modelled by
    Rocq's primitive floats, which are the same format with the same
    round-to-nearest-even arithmetic.  JavaScript strings are modelled by
    [string]; a character stands for a code unit below 256. *)

From Stdlib Require Import ZArith Floats Ascii String List Bool.
From stdpp Require Import base option list gmap strings.

Local Open Scope string_scope.
Local Open Scope list_scope.

(** ** The JavaScript values and built-ins the mapper relies on *)

Module JS.

(** A raw extracted value is a string or a number
    ([ExtractedFieldData = { [key: string]: string | number }]); an absent
    property reads as [undefined], modelled by [None] at lookup. *)
Inductive Value : Type :=
| VNum (n : float)
| VStr (s : string).

Definition NaN : float := PrimFloat.nan.
Definition Infinity : float := PrimFloat.infinity.

Definition isNaN (x : float) : bool := negb (PrimFloat.eqb x x).

(** ToBoolean on numbers: [0], [-0] and [NaN] are falsy. *)
Definition truthyNum (x : float) : bool :=
  negb (PrimFloat.eqb x 0) && negb (isNaN x).

(** ToBoolean on strings: only the empty string is falsy. *)
Definition truthyStr (s : string) : bool :=
  match s with EmptyString => false | String _ _ => true end.

Definition truthy (v : option Value) : bool :=
  match v with
  | None => false
  | Some (VNum n) => truthyNum n
  | Some (VStr s) => truthyStr s
  end.

Definition truthyNumO (v : option float) : bool :=
  match v with Some n => truthyNum n | None => false end.

Definition truthyStrO (v : option string) : bool :=
  match v with Some s => truthyStr s | None => false end.

(** [v || 0] on an optional number-typed property. *)
Definition orZero (v : option float) : float :=
  match v with
  | Some n => if truthyNum n then n else 0%float
  | None => 0%float
  end.

(** [v || ''] on an optional string. *)
Definition orEmpty (v : option string) : string :=
  match v with
  | Some s => s
  | None => ""
  end.

(** [a > b] *)
Definition gt (a b : float) : bool := PrimFloat.ltb b a.

Definition isNegZero (x : float) : bool :=
  match PrimFloat.classify x with NZero => true | _ => false end.

(** [Math.max(a, b)]: NaN if either is NaN, and [+0] is larger than [-0]. *)
Definition Math_max (a b : float) : float :=
  if isNaN a || isNaN b then NaN
  else if PrimFloat.ltb a b then b
  else if PrimFloat.ltb b a then a
  else if isNegZero a then b else a.

(** [Math.min(a, b)]: NaN if either is NaN, and [-0] is smaller than [+0]. *)
Definition Math_min (a b : float) : float :=
  if isNaN a || isNaN b then NaN
  else if PrimFloat.ltb a b then a
  else if PrimFloat.ltb b a then b
  else if isNegZero a then a else b.

(** The binary64 value nearest to an integer (exact below [2^53]). *)
Definition ofZ (z : Z) : float :=
  SF2Prim (binary_normalize prec emax z 0 false).

(** [Math.round(x)]: the integer nearest to [x], ties towards [+Infinity];
    [NaN], the infinities and the zeros are returned as they are, and a
    result of zero keeps the sign of [x]. *)
Definition Math_round (x : float) : float :=
  match Prim2SF x with
  | S754_finite s m e =>
      if (0 <=? e)%Z then x
      else
        let d := (2 ^ (- e))%Z in
        let r := ((2 * cond_Zopp s (Zpos m) + d) / (2 * d))%Z in
        if (r =? 0)%Z then (if s then (-0)%float else 0%float) else ofZ r
  | _ => x
  end.

(** *** Characters and strings *)

(** [\s] and the characters removed by [trim], among the code units below
    256: tab, line feed, vertical tab, form feed, carriage return, space
    and no-break space. *)
Definition is_ws (c : ascii) : bool :=
  let n := nat_of_ascii c in
  ((9 <=? n) && (n <=? 13) || (n =? 32) || (n =? 160))%nat.

(** [\d] *)
Definition is_digit (c : ascii) : bool :=
  let n := nat_of_ascii c in ((48 <=? n) && (n <=? 57))%nat.

(** [[A-Z]] *)
Definition is_upper (c : ascii) : bool :=
  let n := nat_of_ascii c in ((65 <=? n) && (n <=? 90))%nat.

Fixpoint filterStr (p : ascii -> bool) (s : string) : string :=
  match s with
  | EmptyString => EmptyString
  | String c s' => if p c then String c (filterStr p s') else filterStr p s'
  end.

Fixpoint allStr (p : ascii -> bool) (s : string) : bool :=
  match s with
  | EmptyString => true
  | String c s' => p c && allStr p s'
  end.

Fixpoint trimStart (s : string) : string :=
  match s with
  | EmptyString => EmptyString
  | String c s' => if is_ws c then trimStart s' else s
  end.

Fixpoint trimEnd (s : string) : string :=
  match s with
  | EmptyString => EmptyString
  | String c s' =>
      match trimEnd s' with
      | EmptyString => if is_ws c then EmptyString else String c EmptyString
      | t => String c t
      end
  end.

(** [s.trim()] *)
Definition trim (s : string) : string := trimEnd (trimStart s).

(** Prepend a character to the first piece of a split. *)
Definition consHead (c : ascii) (l : list string) : list string :=
  match l with
  | t :: ts => String c t :: ts
  | [] => [String c EmptyString]
  end.

(** [s.split(/\s+/)]: the pieces between maximal runs of white space.
    [inSep] tells that the previous character belonged to a separator. *)
Fixpoint splitWsFrom (inSep : bool) (s : string) : list string :=
  match s with
  | EmptyString => [EmptyString]
  | String c s' =>
      if is_ws c then
        if inSep then splitWsFrom true s'
        else EmptyString :: splitWsFrom true s'
      else consHead c (splitWsFrom false s')
  end.

Definition splitWs (s : string) : list string := splitWsFrom false s.

(** [s.split(c)] for a one-character separator. *)
Fixpoint splitChar (sep : ascii) (s : string) : list string :=
  match s with
  | EmptyString => [EmptyString]
  | String c s' =>
      if Ascii.eqb c sep then EmptyString :: splitChar sep s'
      else consHead c (splitChar sep s')
  end.

(** [parts.join(sep)] *)
Fixpoint join (sep : string) (parts : list string) : string :=
  match parts with
  | [] => ""
  | [p] => p
  | p :: ps => (p ++ sep ++ join sep ps)%string
  end.

(** [arr.slice(0, -k)] *)
Definition sliceButLast {A} (k : nat) (l : list A) : list A :=
  take (length l - k) l.

(** *** [parseFloat] *)

Definition digitVal (c : ascii) : Z := Z.of_nat (nat_of_ascii c - 48).

(** Reads a run of decimal digits: their value continuing [acc], their
    number, and the rest of the string. *)
Fixpoint readDigits (acc : Z) (n : Z) (s : string) : Z * Z * string :=
  match s with
  | String c s' =>
      if is_digit c then readDigits (10 * acc + digitVal c) (n + 1) s'
      else (acc, n, s)
  | EmptyString => (acc, n, s)
  end.

(** The optional exponent part [[eE][+-]?\d+]; an incomplete one is not
    part of the literal. *)
Definition readExponent (s : string) : Z :=
  match s with
  | String c s' =>
      if (Ascii.eqb c "e" || Ascii.eqb c "E")%bool then
        let '(neg, s'') :=
          match s' with
          | String "-" t => (true, t)
          | String "+" t => (false, t)
          | _ => (false, s')
          end in
        let '(v, n, _) := readDigits 0 0 s'' in
        if (n =? 0)%Z then 0%Z else if neg then (- v)%Z else v
      else 0%Z
  | EmptyString => 0%Z
  end.

(** The binary64 value nearest to [m * 10^e] for [m >= 0], with sign
    [neg]. *)
Definition decimalToNumber (neg : bool) (m e : Z) : float :=
  match m with
  | Zpos p =>
      if (0 <=? e)%Z then
        SF2Prim (binary_normalize prec emax
                   (cond_Zopp neg (Zpos p * 10 ^ e)) 0 false)
      else
        match (10 ^ (- e))%Z with
        | Zpos q =>
            SF2Prim (SFdiv prec emax (S754_finite neg p 0)
                                     (S754_finite false q 0))
        | _ => NaN
        end
  | _ => if neg then (-0)%float else 0%float
  end.

Definition hasPrefix (p s : string) : bool := String.prefix p s.

(** [parseFloat(s)]: the longest prefix of [s], after leading white space,
    that is a decimal literal; [NaN] when there is none. *)
Definition parseFloat (s : string) : float :=
  let s0 := trimStart s in
  let '(neg, s1) :=
    match s0 with
    | String "-" t => (true, t)
    | String "+" t => (false, t)
    | _ => (false, s0)
    end in
  if hasPrefix "Infinity" s1 then
    (if neg then PrimFloat.neg_infinity else Infinity)
  else
    let '(ip, ni, s2) := readDigits 0 0 s1 in
    let '(m, nf, s3, dot) :=
      match s2 with
      | String "." t =>
          let '(m, nf, s3) := readDigits ip 0 t in (m, nf, s3, true)
      | _ => (ip, 0%Z, s2, false)
      end in
    if ((ni =? 0) && (nf =? 0))%Z then NaN
    else decimalToNumber neg m (readExponent s3 - nf).

End JS.

Import JS.

(** ** Outcomes: a call returns a value or throws *)

Inductive Error : Type :=
| TypeError (msg : string).

Inductive Outcome (A : Type) : Type :=
| Returns (a : A)
| Throws (e : Error).
Arguments Returns {A} a.
Arguments Throws {A} e.

(** A method call [v.name(...)] that only strings have: a number has no
    such property, [undefined] has no properties, and both calls are a
    [TypeError]. *)
Definition asString (callee : string) (v : option Value) : Outcome string :=
  match v with
  | Some (VStr s) => Returns s
  | Some (VNum _) => Throws (TypeError (callee ++ " is not a function")%string)
  | None => Throws (TypeError "Cannot read properties of undefined")
  end.

#[global] Instance Outcome_ret : MRet Outcome := fun A a => Returns a.
#[global] Instance Outcome_bind : MBind Outcome := fun A B f m =>
  match m with
  | Returns a => f a
  | Throws e => Throws e
  end.

(** ** Data model *)

(** The raw extracted-field record [w2Data: any]: an untyped bag from
    field name to value. *)
Abbreviation W2Data := (gmap string Value).

(** Modelled from the spec: the interface [Form1040Data] of
    [lib/form-1040-types] is not among the sources.  [Partial<Form1040Data>]
    is a sparse record in which every property is optional; its
    string-typed properties (name parts, identifier, address components,
    filing status) and its number-typed properties (the numbered lines,
    the tax year) are kept in two finite maps keyed by property name. *)
Record Form1040Data : Type := mkForm1040Data {
  strs : gmap string string;
  nums : gmap string float
}.

Definition emptyForm : Form1040Data := mkForm1040Data ∅ ∅.

Definition writeStr (k v : string) (o : Form1040Data) : Form1040Data :=
  mkForm1040Data (<[k := v]> (strs o)) (nums o).

Definition writeNum (k : string) (v : float) (o : Form1040Data) : Form1040Data :=
  mkForm1040Data (strs o) (<[k := v]> (nums o)).

(** One entry of the mapping summary. *)
Record MappingEntry : Type := mkMappingEntry {
  w2Field : string;
  w2Value : option Value;
  form1040Line : string;
  form1040Value : option Value;
  description : string
}.

Record ValidationResult : Type := mkValidationResult {
  isValid : bool;
  errors : list string;
  warnings : list string
}.

Record AddressParts : Type := mkAddressParts {
  street : string;
  city : string;
  state : string;
  zipCode : string
}.

Record Bracket : Type := mkBracket {
  bmin : float;
  bmax : float;
  rate : float
}.

(** ** The local object [form1040Data] as mutable state

    Every statement of [mapW2ToForm1040] after its first reads or assigns
    a property of the one object [form1040Data]; the body is written in a
    state monad over that object, with exceptions. *)

Definition ObjM (A : Type) : Type := Form1040Data -> Outcome A * Form1040Data.

#[global] Instance ObjM_ret : MRet ObjM := fun A a o => (Returns a, o).
#[global] Instance ObjM_bind : MBind ObjM := fun A B f m o =>
  match m o with
  | (Returns a, o') => f a o'
  | (Throws e, o') => (Throws e, o')
  end.

Definition getStr (k : string) : ObjM (option string) :=
  fun o => (Returns (strs o !! k), o).
Definition getNum (k : string) : ObjM (option float) :=
  fun o => (Returns (nums o !! k), o).
Definition setStr (k v : string) : ObjM unit :=
  fun o => (Returns tt, writeStr k v o).
Definition setNum (k : string) (v : float) : ObjM unit :=
  fun o => (Returns tt, writeNum k v o).
(** [form1040Data.k = v] where [v] may be [undefined]; a property holding
    [undefined] reads like an absent one. *)
Definition assignNum (k : string) (v : option float) : ObjM unit :=
  fun o => (Returns tt,
            match v with
            | Some n => writeNum k n o
            | None => mkForm1040Data (strs o) (delete k (nums o))
            end).
Definition getObj : ObjM Form1040Data := fun o => (Returns o, o).
Definition liftO {A} (r : Outcome A) : ObjM A := fun o => (r, o).
Definition when (b : bool) (m : ObjM unit) : ObjM unit :=
  if b then m else mret tt.

(** ** The private helpers of [W2ToForm1040Mapper] *)

(** [parseAmount(value: any)]: a number passes through, a string is
    cleaned of [$], [,] and white space and parsed, anything else is 0. *)
Definition parseAmount (value : option Value) : float :=
  match value with
  | Some (VNum n) => n
  | Some (VStr s) =>
      let cleaned :=
        filterStr (fun c => negb (Ascii.eqb c "$" || Ascii.eqb c "," || is_ws c)) s in
      let parsed := parseFloat cleaned in
      if isNaN parsed then 0%float else parsed
  | None => 0%float
  end.

(** [formatSSN(ssn)] *)
Definition formatSSN (ssn : option Value) : Outcome string :=
  if negb (truthy ssn) then Returns ""
  else
    s ← asString "ssn.replace" ssn;
    let cleaned := filterStr is_digit s in
    if (String.length cleaned =? 9)%nat then
      Returns (substring 0 3 cleaned ++ "-" ++ substring 3 2 cleaned
                 ++ "-" ++ substring 5 4 cleaned)%string
    else Returns cleaned.

(** [/^\d{5}(-\d{4})?$/] *)
Definition isZip (z : string) : bool :=
  let five := substring 0 5 z in
  let rest := substring 5 (String.length z - 5) z in
  (String.length five =? 5)%nat && allStr is_digit five &&
  match rest with
  | EmptyString => true
  | String c ext =>
      Ascii.eqb c "-" && (String.length ext =? 4)%nat && allStr is_digit ext
  end.

(** [stateZip.match(/^([A-Z]{2})\s*(\d{5}(-\d{4})?)$/)]: the two captured
    groups, or [None] when there is no match. *)
Definition matchStateZip (stateZip : string) : option (string * string) :=
  match stateZip with
  | String a (String b rest) =>
      let z := trimStart rest in
      if is_upper a && is_upper b && isZip z
      then Some (String a (String b EmptyString), z)
      else None
  | _ => None
  end.

(** [parseAddress(address)] *)
Definition parseAddress (address : option Value) : Outcome AddressParts :=
  a ← asString "address.split" address;
  let parts := map trim (splitChar "," a) in
  if (3 <=? length parts)%nat then
    let street := join ", " (sliceButLast 2 parts) in
    let city := orEmpty (parts !! (length parts - 2)%nat) in
    let stateZip := orEmpty (parts !! (length parts - 1)%nat) in
    let stateZipMatch := matchStateZip stateZip in
    Returns (mkAddressParts street city
               (match stateZipMatch with Some (st, _) => st | None => "" end)
               (match stateZipMatch with Some (_, z) => z | None => "" end))
  else Returns (mkAddressParts a "" "" "").

(** [calculateTotalIncome(form1040Data)] *)
Definition calculateTotalIncome (form1040Data : Form1040Data) : float :=
  let line k := orZero (nums form1040Data !! k) in
  (line "line1" + line "line2b" + line "line3b" + line "line4b" +
   line "line5b" + line "line6b" + line "line7" + line "line8")%float.

Definition STANDARD_DEDUCTION_2023 : list (string * float) :=
  [ ("SINGLE", 13850%float);
    ("MARRIED_FILING_JOINTLY", 27700%float);
    ("MARRIED_FILING_SEPARATELY", 13850%float);
    ("HEAD_OF_HOUSEHOLD", 20800%float);
    ("QUALIFYING_SURVIVING_SPOUSE", 27700%float) ].

Fixpoint tableLookup (table : list (string * float)) (k : string) : option float :=
  match table with
  | [] => None
  | (k', v) :: rest => if String.eqb k' k then Some v else tableLookup rest k
  end.

(** The names every object literal answers for besides its own keys: the
    members of [Object.prototype]. *)
Definition objectPrototypeNames : list string :=
  [ "constructor"; "__defineGetter__"; "__defineSetter__"; "hasOwnProperty";
    "__lookupGetter__"; "__lookupSetter__"; "isPrototypeOf"; "propertyIsEnumerable";
    "toString"; "valueOf"; "__proto__"; "toLocaleString" ].

(** [getStandardDeduction(filingStatus)]: the table entry of the status,
    and the entry of ['SINGLE'] for a status the table does not list.  The
    table is read for its own five keys.  For a status in
    [objectPrototypeNames] the source returns the inherited member, a
    function or an object and not a number; this definition is the source
    on every other status, and what is stated of [getStandardDeduction]
    alone is stated for those. *)
Definition getStandardDeduction (filingStatus : string) : float :=
  let single := default NaN (tableLookup STANDARD_DEDUCTION_2023 "SINGLE") in
  match tableLookup STANDARD_DEDUCTION_2023 filingStatus with
  | Some v => if truthyNum v then v else single
  | None => single
  end.

Definition bracketsMarriedFilingJointly : list Bracket :=
  [ mkBracket 0 22000 0.10; mkBracket 22000 89450 0.12;
    mkBracket 89450 190750 0.22; mkBracket 190750 364200 0.24;
    mkBracket 364200 462500 0.32; mkBracket 462500 693750 0.35;
    mkBracket 693750 Infinity 0.37 ]%float.

Definition bracketsSingle : list Bracket :=
  [ mkBracket 0 11000 0.10; mkBracket 11000 44725 0.12;
    mkBracket 44725 95375 0.22; mkBracket 95375 182050 0.24;
    mkBracket 182050 231250 0.32; mkBracket 231250 578125 0.35;
    mkBracket 578125 Infinity 0.37 ]%float.

(** The [for (const bracket of brackets)] loop, on the pair of mutable
    locals [tax] and [remainingIncome]; it returns the final [tax]. *)
Fixpoint bracketLoop (brackets : list Bracket) (tax remainingIncome : float) : float :=
  match brackets with
  | [] => tax
  | bracket :: rest =>
      if PrimFloat.leb remainingIncome 0 then tax
      else
        let taxableAtThisBracket :=
          Math_min remainingIncome (bmax bracket - bmin bracket)%float in
        bracketLoop rest (tax + taxableAtThisBracket * rate bracket)%float
                    (remainingIncome - taxableAtThisBracket)%float
  end.

(** [calculateTaxLiability(taxableIncome, filingStatus)] *)
Definition calculateTaxLiability (taxableIncome : float) (filingStatus : option string) : float :=
  let brackets :=
    match filingStatus with
    | Some fs => if String.eqb fs "MARRIED_FILING_JOINTLY"
                 then bracketsMarriedFilingJointly else bracketsSingle
    | None => bracketsSingle
    end in
  let tax := bracketLoop brackets 0%float taxableIncome in
  (Math_round (tax * 100) / 100)%float.

(** ** The entry points of [W2ToForm1040Mapper] *)

(** The statements of [mapW2ToForm1040] that follow the creation of
    [form1040Data], in source order, in three blocks. *)

(** Lines 13-30, "Personal Information Mapping": one definition for each
    of its three [if] statements. *)
Definition mapEmployeeName (w2Data : W2Data) : ObjM unit :=
  firstName ← getStr "firstName";
  when (truthy (w2Data !! "employeeName") && negb (truthyStrO firstName)) (
    employeeName ← liftO (asString "w2Data.employeeName.trim" (w2Data !! "employeeName"));
    let nameParts := splitWs (trim employeeName) in
    setStr "firstName" (orEmpty (nameParts !! 0%nat));;
    setStr "lastName" (join " " (drop 1 nameParts))
  ).

Definition mapEmployeeSSN (w2Data : W2Data) : ObjM unit :=
  ssn ← getStr "ssn";
  when (truthy (w2Data !! "employeeSSN") && negb (truthyStrO ssn)) (
    formatted ← liftO (formatSSN (w2Data !! "employeeSSN"));
    setStr "ssn" formatted
  ).

Definition mapEmployeeAddress (w2Data : W2Data) : ObjM unit :=
  address ← getStr "address";
  when (truthy (w2Data !! "employeeAddress") && negb (truthyStrO address)) (
    addressParts ← liftO (parseAddress (w2Data !! "employeeAddress"));
    setStr "address" (street addressParts);;
    setStr "city" (city addressParts);;
    setStr "state" (state addressParts);;
    setStr "zipCode" (zipCode addressParts)
  ).

Definition personalInformationMapping (w2Data : W2Data) : ObjM unit :=
  mapEmployeeName w2Data;;
  mapEmployeeSSN w2Data;;
  mapEmployeeAddress w2Data.

(** Lines 32-43, "Income Mapping". *)
Definition incomeMapping (w2Data : W2Data) : ObjM unit :=
  let wages := parseAmount (w2Data !! "wages") in
  when (gt wages 0) (
    line1 ← getNum "line1";
    setNum "line1" (orZero line1 + wages)%float
  );;
  let federalTaxWithheld := parseAmount (w2Data !! "federalTaxWithheld") in
  when (gt federalTaxWithheld 0) (
    line25a ← getNum "line25a";
    setNum "line25a" (orZero line25a + federalTaxWithheld)%float
  ).

(** Lines 45-82, the derived lines. *)
Definition calculateDerivedLines : ObjM unit :=
  (* total income (Line 9) *)
  form1040Data ← getObj;
  setNum "line9" (calculateTotalIncome form1040Data);;
  (* AGI (Line 11) *)
  line9 ← getNum "line9";
  assignNum "line11" line9;;
  (* standard deduction (Line 12) *)
  line12 ← getNum "line12";
  filingStatus ← getStr "filingStatus";
  when (negb (truthyNumO line12) && truthyStrO filingStatus) (
    setNum "line12" (getStandardDeduction (orEmpty filingStatus))
  );;
  (* taxable income (Line 15) *)
  line11 ← getNum "line11";
  line12 ← getNum "line12";
  line13 ← getNum "line13";
  setNum "line15" (Math_max 0 (orZero line11 - orZero line12 - orZero line13))%float;;
  (* tax liability (Line 16) *)
  line15 ← getNum "line15";
  filingStatus ← getStr "filingStatus";
  setNum "line16" (calculateTaxLiability (orZero line15) filingStatus);;
  (* total tax (Line 24) *)
  line16 ← getNum "line16";
  line17 ← getNum "line17";
  line23 ← getNum "line23";
  setNum "line24" (orZero line16 + orZero line17 + orZero line23)%float;;
  (* total payments (Line 32) *)
  line25a ← getNum "line25a";
  line25b ← getNum "line25b";
  line25c ← getNum "line25c";
  line25d ← getNum "line25d";
  setNum "line32" (orZero line25a + orZero line25b + orZero line25c + orZero line25d)%float;;
  (* refund or amount owed *)
  line24 ← getNum "line24";
  let totalTax := orZero line24 in
  line32 ← getNum "line32";
  let totalPayments := orZero line32 in
  if gt totalPayments totalTax then
    setNum "line33" (totalPayments - totalTax)%float;;
    line33 ← getNum "line33";
    assignNum "line34" line33;;
    setNum "line37" 0%float
  else
    setNum "line33" 0%float;;
    setNum "line34" 0%float;;
    setNum "line37" (totalTax - totalPayments)%float.

Definition mapW2ToForm1040_body (w2Data : W2Data) : ObjM unit :=
  personalInformationMapping w2Data;;
  incomeMapping w2Data;;
  calculateDerivedLines.

(** The record a call of [mapW2ToForm1040] returns when the object behind
    [existingForm1040] holds [existingRecord]: the spec's
    [merge(rawFields, existingRecord)]. *)
Definition mergeW2 (rawFields : W2Data) (existingRecord : Form1040Data) : Outcome Form1040Data :=
  match mapW2ToForm1040_body rawFields existingRecord with
  | (Returns _, form1040Data) => Returns form1040Data
  | (Throws e, _) => Throws e
  end.

(** *** Objects live in a heap

    [existingForm1040] is a reference to an object of the caller, or
    [undefined]; the returned value is a reference too. *)

Definition loc : Type := positive.
Abbreviation Heap := (gmap loc Form1040Data).

Definition HeapM (A : Type) : Type := Heap -> Outcome A * Heap.

#[global] Instance HeapM_ret : MRet HeapM := fun A a h => (Returns a, h).
#[global] Instance HeapM_bind : MBind HeapM := fun A B f m h =>
  match m h with
  | (Returns a, h') => f a h'
  | (Throws e, h') => (Throws e, h')
  end.

(** [{ ...src }]: a new object with a copy of the own properties of
    [src]; spreading [undefined] gives the empty object. *)
Definition spread (src : option loc) : HeapM loc :=
  fun h =>
    let copy :=
      match src with
      | Some r => default emptyForm (h !! r)
      | None => emptyForm
      end in
    let l := fresh (dom h) in
    (Returns l, <[l := copy]> h).

(** Runs statements that read and assign the properties of the object
    behind [l]. *)
Definition onObject {A} (l : loc) (m : ObjM A) : HeapM A :=
  fun h =>
    let '(r, o') := m (default emptyForm (h !! l)) in
    (r, <[l := o']> h).

(** [mapW2ToForm1040(w2Data, existingForm1040?)] *)
Definition mapW2ToForm1040 (w2Data : W2Data) (existingForm1040 : option loc) : HeapM loc :=
  form1040Data ← spread existingForm1040;
  onObject form1040Data (mapW2ToForm1040_body w2Data);;
  mret form1040Data.

(** [createMappingSummary(w2Data)]; [mappings.push(e)] appends [e]. *)
Definition createMappingSummary (w2Data : W2Data) : Outcome (list MappingEntry) :=
  let mappings : list MappingEntry := [] in
  let mappings :=
    if truthy (w2Data !! "employeeName") then
      mappings ++ [mkMappingEntry "Employee Name" (w2Data !! "employeeName")
                     "Header" (w2Data !! "employeeName") "Taxpayer name from W2"]
    else mappings in
  mappings ←
    (if truthy (w2Data !! "employeeSSN") then
       formatted ← formatSSN (w2Data !! "employeeSSN");
       mret (mappings ++ [mkMappingEntry "Employee SSN" (w2Data !! "employeeSSN")
                            "Header" (Some (VStr formatted)) "Taxpayer SSN from W2"])
     else mret mappings);
  let mappings :=
    if truthy (w2Data !! "wages") then
      mappings ++ [mkMappingEntry "Box 1 - Wages" (w2Data !! "wages")
                     "Line 1" (Some (VNum (parseAmount (w2Data !! "wages"))))
                     "Wages, tips, other compensation"]
    else mappings in
  let mappings :=
    if truthy (w2Data !! "federalTaxWithheld") then
      mappings ++ [mkMappingEntry "Box 2 - Federal Tax Withheld" (w2Data !! "federalTaxWithheld")
                     "Line 25a" (Some (VNum (parseAmount (w2Data !! "federalTaxWithheld"))))
                     "Federal income tax withheld"]
    else mappings in
  let mappings :=
    if truthy (w2Data !! "socialSecurityWages") then
      mappings ++ [mkMappingEntry "Box 3 - Social Security Wages" (w2Data !! "socialSecurityWages")
                     "Informational" (Some (VNum (parseAmount (w2Data !! "socialSecurityWages"))))
                     "Social security wages (informational)"]
    else mappings in
  let mappings :=
    if truthy (w2Data !! "medicareWages") then
      mappings ++ [mkMappingEntry "Box 5 - Medicare Wages" (w2Data !! "medicareWages")
                     "Informational" (Some (VNum (parseAmount (w2Data !! "medicareWages"))))
                     "Medicare wages and tips (informational)"]
    else mappings in
  mret mappings.

(** [validateW2DataForMapping(w2Data)] *)
Definition validateW2DataForMapping (w2Data : W2Data) : ValidationResult :=
  let errors : list string := [] in
  let warnings : list string := [] in
  (* Required fields *)
  let errors :=
    if negb (truthy (w2Data !! "wages")) && negb (truthy (w2Data !! "line1"))
    then errors ++ ["W2 wages (Box 1) is required but not found"] else errors in
  let errors :=
    if negb (truthy (w2Data !! "employeeSSN")) && negb (truthy (w2Data !! "ssn"))
    then errors ++ ["Employee SSN is required but not found"] else errors in
  let errors :=
    if negb (truthy (w2Data !! "employeeName")) && negb (truthy (w2Data !! "firstName"))
       && negb (truthy (w2Data !! "lastName"))
    then errors ++ ["Employee name is required but not found"] else errors in
  (* Warnings for missing optional but important fields *)
  let warnings :=
    if negb (truthy (w2Data !! "federalTaxWithheld"))
    then warnings ++ ["Federal tax withheld (Box 2) not found - no withholdings will be applied"]
    else warnings in
  let warnings :=
    if negb (truthy (w2Data !! "employerName"))
    then warnings ++ ["Employer name not found - may be needed for verification"]
    else warnings in
  let warnings :=
    if negb (truthy (w2Data !! "employerEIN"))
    then warnings ++ ["Employer EIN not found - may be needed for verification"]
    else warnings in
  mkValidationResult (length errors =? 0)%nat errors warnings.

(** ** The W-2 extraction and the form handler

    The same source file carries the two callers of the mapper: the
    extraction service, whose [processW2Fields] produces the bag the mapper
    reads, and the GET handler of the form, whose loop folds the mapper
    over the W-2 documents of a tax return. *)

(** A [value] of an extracted field: a number, a string, or anything else
    that is not [undefined] ([null], a boolean, an object). *)
Inductive AzureValue : Type :=
| AzNum (n : float)
| AzStr (s : string)
| AzOther.

(** The service's own [parseAmount(value)]: a number as it is, a string
    without [$], [,] and white space through [parseFloat] with [NaN]
    replaced by [0], and [0] for anything else. *)
Definition serviceParseAmount (value : AzureValue) : float :=
  match value with
  | AzNum n => n
  | AzStr s =>
      let cleaned :=
        filterStr (fun c => negb (Ascii.eqb c "$" || Ascii.eqb c "," || is_ws c)) s in
      let parsed := parseFloat cleaned in
      if isNaN parsed then 0%float else parsed
  | AzOther => 0%float
  end.

(** The object literal [w2FieldMappings], in the order of its entries. *)
Definition w2FieldMappings : list (string * string) :=
  [ ("Employee.Name", "employeeName");
    ("Employee.SSN", "employeeSSN");
    ("Employee.Address", "employeeAddress");
    ("Employer.Name", "employerName");
    ("Employer.EIN", "employerEIN");
    ("Employer.Address", "employerAddress");
    ("WagesAndTips", "wages");
    ("FederalIncomeTaxWithheld", "federalTaxWithheld");
    ("SocialSecurityWages", "socialSecurityWages");
    ("SocialSecurityTaxWithheld", "socialSecurityTaxWithheld");
    ("MedicareWagesAndTips", "medicareWages");
    ("MedicareTaxWithheld", "medicareTaxWithheld");
    ("SocialSecurityTips", "socialSecurityTips");
    ("AllocatedTips", "allocatedTips");
    ("StateWagesTipsEtc", "stateWages");
    ("StateIncomeTax", "stateTaxWithheld");
    ("LocalWagesTipsEtc", "localWages");
    ("LocalIncomeTax", "localTaxWithheld") ].

(** The body of the loop of [processW2Fields].  [fields !! name] is
    [fields[name]?.value] when that is not [undefined], and [None] when the
    field is missing or has no value. *)
Definition mapField (fields : gmap string AzureValue) (w2Data : W2Data)
    (mapping : string * string) : W2Data :=
  let '(azureFieldName, mappedFieldName) := mapping in
  match fields !! azureFieldName with
  | Some value =>
      <[mappedFieldName :=
          VNum (match value with AzNum n => n | _ => serviceParseAmount value end)]> w2Data
  | None => w2Data
  end.

(** [processW2Fields(fields, baseData)]: a copy of [baseData] with one
    property per extracted field of the mapping. *)
Definition processW2Fields (fields : gmap string AzureValue) (baseData : W2Data) : W2Data :=
  foldl (mapField fields) baseData w2FieldMappings.

(** [{ ...a, ...b }] on form records: the properties of [b], then those of
    [a] that [b] does not have. *)
Definition spreadBoth (a b : Form1040Data) : Form1040Data :=
  mkForm1040Data (strs b ∪ strs a) (nums b ∪ nums a).

(** The loop of the GET handler over the W-2 documents of a tax return.  A
    document is [None] when its [extractedData] is missing or not an
    object, and such a document is skipped; otherwise it is the bag
    [extractedData.extractedData || extractedData].  Each call of the
    mapper works on a copy of the record it is given, so the loop is
    written over the records themselves; of an entry pushed to
    [w2MappingData] the [mappings] are kept.  An exception leaves the loop
    (the handler answers with status 500). *)
Fixpoint w2Loop (w2Documents : list (option W2Data)) (form1040Data : Form1040Data)
    (w2MappingData : list (list MappingEntry))
    : Outcome (Form1040Data * list (list MappingEntry)) :=
  match w2Documents with
  | [] => Returns (form1040Data, w2MappingData)
  | None :: rest => w2Loop rest form1040Data w2MappingData
  | Some extractedData :: rest =>
      mappedData ← mergeW2 extractedData form1040Data;
      let form1040Data := spreadBoth form1040Data mappedData in
      mappingSummary ← createMappingSummary extractedData;
      w2Loop rest form1040Data (w2MappingData ++ [mappingSummary])
  end.

(** ** Specification-side definitions *)

(** The words of a string: its maximal runs of characters that are not
    white space.  This is the spec's "split on whitespace", written
    without reference to [trim] and [split]. *)
Fixpoint tokens (s : string) : list string :=
  match s with
  | EmptyString => []
  | String c s' =>
      if is_ws c then tokens s'
      else
        match s' with
        | EmptyString => [String c EmptyString]
        | String d _ =>
            if is_ws d then String c EmptyString :: tokens s'
            else consHead c (tokens s')
        end
  end.

Definition tokensOrBlank (s : string) : list string :=
  match tokens s with [] => [EmptyString] | ts => ts end.

(** First token, and the remaining tokens joined by one space. *)
Definition givenName (rawName : string) : string := hd EmptyString (tokens rawName).
Definition familyName (rawName : string) : string := join " " (tl (tokens rawName)).

(** The fixed checklist of the mapping summary. *)
Record ChecklistItem : Type := mkChecklistItem {
  rawKey : string;
  label : string;
  targetLine : string
}.

Definition summaryChecklist : list ChecklistItem :=
  [ mkChecklistItem "employeeName" "Employee Name" "Header";
    mkChecklistItem "employeeSSN" "Employee SSN" "Header";
    mkChecklistItem "wages" "Box 1 - Wages" "Line 1";
    mkChecklistItem "federalTaxWithheld" "Box 2 - Federal Tax Withheld" "Line 25a";
    mkChecklistItem "socialSecurityWages" "Box 3 - Social Security Wages" "Informational";
    mkChecklistItem "medicareWages" "Box 5 - Medicare Wages" "Informational" ].

(** The entries the checklist asks for: one per item whose raw value passes
    the presence test of the code, in checklist order. *)
Definition expectedEntries (w2Data : W2Data) : list (string * option Value * string) :=
  map (fun item => (label item, w2Data !! rawKey item, targetLine item))
      (List.filter (fun item => truthy (w2Data !! rawKey item)) summaryChecklist).

Definition entryView (e : MappingEntry) : string * option Value * string :=
  (w2Field e, w2Value e, form1040Line e).

Definition isTruthyNumber (v : option Value) : bool :=
  match v with Some (VNum n) => truthyNum n | _ => false end.

(** *** What one call leaves in [form1040Data], in closed form *)

(** [line = (line || 0) + amount], done only for a positive amount. *)
Definition accumulate (line : option float) (amount : float) : option float :=
  if gt amount 0 then Some (orZero line + amount)%float else line.

Definition incomeNums (w2Data : W2Data) (n : gmap string float) : gmap string float :=
  let wages := parseAmount (w2Data !! "wages") in
  let n1 := if gt wages 0 then <["line1" := (orZero (n !! "line1") + wages)%float]> n else n in
  let federalTaxWithheld := parseAmount (w2Data !! "federalTaxWithheld") in
  if gt federalTaxWithheld 0
  then <["line25a" := (orZero (n1 !! "line25a") + federalTaxWithheld)%float]> n1
  else n1.

Definition settle (totalTax totalPayments : float) (n : gmap string float) : gmap string float :=
  if gt totalPayments totalTax then
    <["line37" := 0%float]>
      (<["line34" := (totalPayments - totalTax)%float]>
         (<["line33" := (totalPayments - totalTax)%float]> n))
  else
    <["line37" := (totalTax - totalPayments)%float]>
      (<["line34" := 0%float]> (<["line33" := 0%float]> n)).

Definition standardDeductionApplies (filingStatus : option string) (n : gmap string float) : bool :=
  negb (truthyNumO (n !! "line12")) && truthyStrO filingStatus.

Definition line12Of (filingStatus : option string) (n : gmap string float) : option float :=
  if standardDeductionApplies filingStatus n
  then Some (getStandardDeduction (orEmpty filingStatus)) else n !! "line12".

Definition line15Of (filingStatus : option string) (n : gmap string float) : float :=
  Math_max 0 (orZero (Some (calculateTotalIncome (mkForm1040Data ∅ n)))
              - orZero (line12Of filingStatus n) - orZero (n !! "line13"))%float.

Definition line24Of (filingStatus : option string) (n : gmap string float) : float :=
  (orZero (Some (calculateTaxLiability (orZero (Some (line15Of filingStatus n))) filingStatus))
   + orZero (n !! "line17") + orZero (n !! "line23"))%float.

Definition line32Of (n : gmap string float) : float :=
  (orZero (n !! "line25a") + orZero (n !! "line25b") +
   orZero (n !! "line25c") + orZero (n !! "line25d"))%float.

Definition derivedNums (filingStatus : option string) (n : gmap string float) : gmap string float :=
  let line9 := calculateTotalIncome (mkForm1040Data ∅ n) in
  let applies := standardDeductionApplies filingStatus n in
  let n' := <["line11" := line9]> (<["line9" := line9]> n) in
  let n' := if applies then <["line12" := getStandardDeduction (orEmpty filingStatus)]> n' else n' in
  settle (orZero (Some (line24Of filingStatus n))) (orZero (Some (line32Of n)))
    (<["line32" := line32Of n]>
       (<["line24" := line24Of filingStatus n]>
          (<["line16" := calculateTaxLiability (orZero (Some (line15Of filingStatus n))) filingStatus]>
             (<["line15" := line15Of filingStatus n]> n')))).

(** The lines the derived block assigns, and the identity properties. *)
Definition derivedKeys : list string :=
  ["line9"; "line11"; "line12"; "line15"; "line16"; "line24"; "line32";
   "line33"; "line34"; "line37"].

Definition identityKeys : list string :=
  ["firstName"; "lastName"; "ssn"; "address"; "city"; "state"; "zipCode"].

Definition writeName (w2Data : W2Data) (s : gmap string string) : Outcome (gmap string string) :=
  if truthy (w2Data !! "employeeName") && negb (truthyStrO (s !! "firstName")) then
    employeeName ← asString "w2Data.employeeName.trim" (w2Data !! "employeeName");
    let nameParts := splitWs (trim employeeName) in
    Returns (<["lastName" := join " " (drop 1 nameParts)]>
               (<["firstName" := orEmpty (nameParts !! 0%nat)]> s))
  else Returns s.

Definition writeSSN (w2Data : W2Data) (s : gmap string string) : Outcome (gmap string string) :=
  if truthy (w2Data !! "employeeSSN") && negb (truthyStrO (s !! "ssn")) then
    formatted ← formatSSN (w2Data !! "employeeSSN");
    Returns (<["ssn" := formatted]> s)
  else Returns s.

Definition writeAddress (w2Data : W2Data) (s : gmap string string) : Outcome (gmap string string) :=
  if truthy (w2Data !! "employeeAddress") && negb (truthyStrO (s !! "address")) then
    addressParts ← parseAddress (w2Data !! "employeeAddress");
    Returns (<["zipCode" := zipCode addressParts]>
               (<["state" := state addressParts]>
                  (<["city" := city addressParts]>
                     (<["address" := street addressParts]> s))))
  else Returns s.

Definition personalStrs (w2Data : W2Data) (s : gmap string string) : Outcome (gmap string string) :=
  s1 ← writeName w2Data s;
  s2 ← writeSSN w2Data s1;
  writeAddress w2Data s2.

(** A block that returns leaves [f (strs o)] in the string properties and
    the numbers as they were; a block that throws, throws. *)
Definition strBlock (m : ObjM unit) (f : gmap string string -> Outcome (gmap string string)) : Prop :=
  forall o,
    match f (strs o) with
    | Returns s' => m o = (Returns tt, mkForm1040Data s' (nums o))
    | Throws e => fst (m o) = Throws e
    end.

(** *** Reading results, and two merges in a row *)

Definition mergeTwice (first second : W2Data) (R : Form1040Data) : Outcome Form1040Data :=
  mergeW2 first R ≫= mergeW2 second.

Definition lineOf (k : string) (r : Outcome Form1040Data) : option float :=
  match r with Returns o => nums o !! k | Throws _ => None end.

Definition strOf (k : string) (r : Outcome Form1040Data) : option string :=
  match r with Returns o => strs o !! k | Throws _ => None end.

Definition returned (r : Outcome Form1040Data) : Form1040Data :=
  match r with Returns o => o | Throws _ => emptyForm end.

(** *** Concrete inputs *)

(** The worked example: wages 50000 and withholding 5000 merged into a
    record that only knows the filing status. *)
Definition exampleW2 : W2Data :=
  <["wages" := VNum 50000]> (<["federalTaxWithheld" := VNum 5000]> ∅).
Definition exampleExisting : Form1040Data := writeStr "filingStatus" "SINGLE" emptyForm.
Definition exampleHeap : Heap := <[1%positive := exampleExisting]> ∅.

(** The same document as the extraction prints it. *)
Definition exampleW2Text : W2Data :=
  <["wages" := VStr "$50,000.00"]> (<["federalTaxWithheld" := VStr "5,000"]>
    (<["employeeName" := VStr "  John  Q Public "]> (<["employeeSSN" := VStr "123456789"]>
      (<["employeeAddress" := VStr "123 Main St, Apt 4, Springfield, IL 62704"]> ∅)))).

(** Two wage statements and a record that already holds wages. *)
Definition docA : W2Data := <["wages" := VNum 25000.10]> ∅.
Definition docB : W2Data := <["wages" := VNum 7500.30]> ∅.
Definition priorRecord : Form1040Data := writeNum "line1" 50000 emptyForm.

(** A document with identity data only. *)
Definition identityOnlyDocument : W2Data :=
  <["employeeName" := VStr "Jane Roe"]> (<["employeeSSN" := VStr "987-65-4321"]> ∅).

(** An address without a street line, and a later complete one. *)
Definition earlierDocument : W2Data :=
  <["employeeAddress" := VStr ", Springfield, IL 62704"]> ∅.
Definition laterDocument : W2Data :=
  <["employeeName" := VStr "John Doe"]>
    (<["employeeAddress" := VStr "9 Elm St, Boston, MA 02101"]> ∅).
Definition recordWithNames : Form1040Data :=
  writeStr "firstName" "Ann" (writeStr "lastName" "Smith"
    (writeStr "ssn" "111-22-3333" (writeStr "address" "1 Oak Ave"
      (writeStr "city" "Salem" (writeStr "state" "OR" (writeStr "zipCode" "97301" emptyForm)))))).

Definition blankNameDocument : W2Data := <["employeeName" := VStr "   "]> ∅.

(** A document whose name is the empty string. *)
Definition emptyNameDocument : W2Data := <["employeeName" := VStr ""]> ∅.

(** A bag with wages, identifier and name and nothing else. *)
Definition requiredOnly : W2Data :=
  <["wages" := VNum 50000]> (<["employeeSSN" := VStr "123-45-6789"]>
    (<["employeeName" := VStr "John Doe"]> ∅)).

(** The same bag with a wage amount of zero. *)
Definition zeroWages : W2Data := <["wages" := VNum 0]> requiredOnly.

(** An identifier that the extraction delivered as a number. *)
Definition numericIdentifier : W2Data := <["employeeSSN" := VNum 123456789]> ∅.

(** *** Vocabulary of the further properties *)

(** The numeric lines the derived block reads without writing them first. *)
Definition inputKeys : list string :=
  ["line1"; "line2b"; "line3b"; "line4b"; "line5b"; "line6b"; "line7"; "line8";
   "line12"; "line13"; "line17"; "line23"; "line25a"; "line25b"; "line25c"; "line25d"].

(** The lines the derived block writes on every call. *)
Definition recomputedKeys : list string :=
  ["line9"; "line11"; "line15"; "line16"; "line24"; "line32"; "line33"; "line34"; "line37"].

(** The income lines other than wages. *)
Definition otherIncomeKeys : list string :=
  ["line2b"; "line3b"; "line4b"; "line5b"; "line6b"; "line7"; "line8"].

(** The upper end of the first tax bracket of a filing status. *)
Definition firstBracketWidth (filingStatus : option string) : float :=
  match filingStatus with
  | Some fs => if String.eqb fs "MARRIED_FILING_JOINTLY" then 22000%float else 11000%float
  | None => 11000%float
  end.

Fixpoint countChar (c : ascii) (s : string) : nat :=
  match s with
  | EmptyString => 0
  | String a s' => (if Ascii.eqb a c then 1 else 0) + countChar c s'
  end.

(** The characters [parseAmount] removes: [/[$,\s]/]. *)
Definition isSeparator (c : ascii) : bool :=
  Ascii.eqb c "$" || Ascii.eqb c "," || is_ws c.

Definition noWhiteSpace (s : string) : bool := allStr (fun c => negb (is_ws c)) s.

Definition isZipChar (c : ascii) : bool := is_digit c || Ascii.eqb c "-".

Definition tokenOk (t : string) : Prop := t <> EmptyString /\ noWhiteSpace t = true.

Definition isText (v : option Value) : bool :=
  match v with Some (VStr _) => true | _ => false end.

(** An extraction result: a name and wages as text, withholding as a
    number, over base data that holds the full text only. *)
Definition azureFields : gmap string AzureValue :=
  <["Employee.Name" := AzStr "John Smith"]>
    (<["WagesAndTips" := AzStr "$50,000.00"]>
      (<["FederalIncomeTaxWithheld" := AzNum 5000]> ∅)).
Definition azureBase : W2Data := <["fullText" := VStr "W-2 Wage and Tax Statement"]> ∅.

(** Three documents of a tax return, the second without extracted data. *)
Definition loopDocuments : list (option W2Data) := [Some docA; None; Some docB].

(** The same extraction result with the identifier as the form prints it. *)
Definition azureFieldsWithIdentifier : gmap string AzureValue :=
  <["Employee.SSN" := AzStr "123-45-6789"]> azureFields.

(** An extraction result that holds the identifier only, as a number. *)
Definition extractedIdentifier : gmap string AzureValue :=
  <["Employee.SSN" := AzNum 123456789]> ∅.

(** ** Running the blocks *)

Lemma bind_getNum {B} k (f : option float -> ObjM B) o :
  (getNum k ≫= f) o = f (nums o !! k) o.
Proof. reflexivity. Qed.

Lemma bind_getStr {B} k (f : option string -> ObjM B) o :
  (getStr k ≫= f) o = f (strs o !! k) o.
Proof. reflexivity. Qed.

Lemma bind_getObj {B} (f : Form1040Data -> ObjM B) o : (getObj ≫= f) o = f o o.
Proof. reflexivity. Qed.

Lemma bind_setNum {B} k v (f : unit -> ObjM B) o :
  (setNum k v ≫= f) o = f tt (writeNum k v o).
Proof. reflexivity. Qed.

Lemma bind_setStr {B} k v (f : unit -> ObjM B) o :
  (setStr k v ≫= f) o = f tt (writeStr k v o).
Proof. reflexivity. Qed.

Lemma bind_assignNum {B} k v (f : unit -> ObjM B) o :
  (assignNum k (Some v) ≫= f) o = f tt (writeNum k v o).
Proof. reflexivity. Qed.

Lemma bind_when {B} b m (f : unit -> ObjM B) o :
  (when b m ≫= f) o = if b then (m ≫= f) o else f tt o.
Proof. by destruct b. Qed.

Lemma seq_run {B} (m1 : ObjM unit) (m2 : ObjM B) o :
  (m1 ;; m2) o =
  match m1 o with
  | (Returns _, o1) => m2 o1
  | (Throws e, o1) => (Throws e, o1)
  end.
Proof. reflexivity. Qed.

(** ** Proof tools *)

Ltac obj_step :=
  first
    [ rewrite bind_getNum | rewrite bind_getStr | rewrite bind_getObj
    | rewrite bind_setNum | rewrite bind_setStr | rewrite bind_assignNum ];
  cbv beta; cbn [nums strs writeNum writeStr].

Ltac map_look :=
  repeat first
    [ rewrite lookup_insert_eq
    | rewrite lookup_insert_ne by (first [ intros ?; discriminate | congruence ]) ].

Ltac not_in_keys :=
  rewrite !not_elem_of_cons; repeat split; try discriminate; apply not_elem_of_nil.

Ltac in_keys := solve [repeat constructor].

Ltac split_ands :=
  repeat match goal with H : (_ && _) = true |- _ => apply andb_prop in H as [? ?] end.

(** ** Facts about binary64 arithmetic *)

Section FloatFacts.

Lemma Prim2SF_zero : Prim2SF 0%float = S754_zero false.
Proof. reflexivity. Qed.

Lemma SFcompare_refl_finite s m e :
  SFcompare (S754_finite s m e) (S754_finite s m e) = Some Eq.
Proof.
  simpl. rewrite Z.compare_refl.
  assert (Pos.compare_cont Eq m m = Eq) as -> by apply Pos.compare_cont_refl.
  by destruct s.
Qed.

Lemma gt_zero_shape a :
  gt a 0 = true ->
  Prim2SF a = S754_infinity false \/ exists m e, Prim2SF a = S754_finite false m e.
Proof.
  unfold gt. rewrite ltb_spec, Prim2SF_zero.
  destruct (Prim2SF a) as [s|s| |s m e]; try discriminate.
  - destruct s; [discriminate | by left].
  - destruct s; [discriminate | right; eauto].
Qed.

Lemma gt_zero_truthy a : gt a 0 = true -> truthyNum a = true.
Proof.
  intros H. unfold truthyNum, isNaN. rewrite !FloatAxioms.eqb_spec, Prim2SF_zero.
  destruct (gt_zero_shape a H) as [-> | (m & e & ->)]; [reflexivity|].
  unfold SFeqb. rewrite SFcompare_refl_finite. reflexivity.
Qed.

Lemma add_zero_l a : gt a 0 = true -> (0 + a)%float = a.
Proof.
  intros H. apply Prim2SF_inj. rewrite add_spec, Prim2SF_zero.
  by destruct (gt_zero_shape a H) as [-> | (m & e & ->)].
Qed.

Lemma float_add_comm (x y : float) : (x + y)%float = (y + x)%float.
Proof.
  apply Prim2SF_inj. rewrite !add_spec. unfold SF64add, SFadd.
  destruct (Prim2SF x) as [sx|sx| |sx mx ex], (Prim2SF y) as [sy|sy| |sy my ey];
    try reflexivity; try (by destruct sx, sy).
  rewrite (Z.min_comm ey ex). f_equal. apply Z.add_comm.
Qed.

Lemma sub_zero_r (x : float) : (x - 0)%float = x.
Proof.
  apply Prim2SF_inj. rewrite sub_spec, Prim2SF_zero. unfold SF64sub, SFsub.
  destruct (Prim2SF x) as [s|s| |s m e]; try reflexivity. by destruct s.
Qed.

Lemma float_neq (x y : float) : Prim2SF x <> Prim2SF y -> x <> y.
Proof. congruence. Qed.

Lemma orZero_falsy v : truthyNumO v = false -> orZero v = 0%float.
Proof. destruct v as [n|]; simpl; [|done]. by intros ->. Qed.

Lemma orZero_gt a : gt a 0 = true -> orZero (Some a) = a.
Proof. intros H. simpl. by rewrite gt_zero_truthy. Qed.

Lemma getStandardDeduction_truthy fs : truthyNum (getStandardDeduction fs) = true.
Proof.
  unfold getStandardDeduction, STANDARD_DEDUCTION_2023. cbn [tableLookup].
  repeat match goal with
         | |- context [String.eqb ?a fs] => destruct (String.eqb a fs)
         end; vm_compute; reflexivity.
Qed.

Lemma accumulate_swap line a b :
  truthyNumO line = false ->
  accumulate (accumulate line a) b = accumulate (accumulate line b) a.
Proof.
  intros Hl. unfold accumulate.
  destruct (gt a 0) eqn:Ha, (gt b 0) eqn:Hb; try reflexivity.
  rewrite (orZero_falsy _ Hl), (add_zero_l a Ha), (add_zero_l b Hb).
  rewrite (orZero_gt a Ha), (orZero_gt b Hb). f_equal. apply float_add_comm.
Qed.

End FloatFacts.

(** ** White space, [trim] and [split] against [tokens] *)

Section Tokens.

Lemma tokens_trimStart s : tokens (trimStart s) = tokens s.
Proof.
  induction s as [|c s IH]; [reflexivity|]. cbn [trimStart].
  destruct (is_ws c) eqn:Hc; [|reflexivity]. rewrite IH. cbn [tokens]. by rewrite Hc.
Qed.

Lemma trimStart_head c t s : trimStart s = String c t -> is_ws c = false.
Proof.
  induction s as [|a s IH]; [discriminate|]. cbn [trimStart].
  destruct (is_ws a) eqn:Ha; [by apply IH|]. by intros [= <- _].
Qed.

Lemma trimEnd_empty s : trimEnd s = EmptyString <-> allStr is_ws s = true.
Proof.
  induction s as [|c s IH]; [done|]. cbn [trimEnd allStr].
  destruct (trimEnd s) eqn:Ht.
  - destruct (is_ws c); cbn; [tauto|]. split; discriminate.
  - split; [discriminate|]. intros [_ H]%andb_prop. apply IH in H. discriminate.
Qed.

Lemma tokens_empty s : tokens s = [] <-> allStr is_ws s = true.
Proof.
  induction s as [|c s IH]; [done|]. cbn [tokens allStr].
  destruct (is_ws c) eqn:Hc; cbn [andb]; [done|].
  split; [|discriminate]. destruct s as [|d s]; [discriminate|].
  destruct (is_ws d); [discriminate|]. destruct (tokens (String d s)); discriminate.
Qed.

Lemma trimEnd_tokens_empty s : trimEnd s = EmptyString <-> tokens s = [].
Proof. by rewrite trimEnd_empty, tokens_empty. Qed.

Lemma trimEnd_cons_nonws c s :
  is_ws c = false -> trimEnd (String c s) = String c (trimEnd s).
Proof. intros Hc. cbn [trimEnd]. rewrite Hc. by destruct (trimEnd s). Qed.

Lemma trimEnd_cons_ws c s :
  is_ws c = true -> trimEnd s <> EmptyString -> trimEnd (String c s) = String c (trimEnd s).
Proof. intros Hc Hne. cbn [trimEnd]. by destruct (trimEnd s). Qed.

Lemma tokens_nonws_nonempty c s : is_ws c = false -> tokens (String c s) <> [].
Proof. intros Hc H. apply tokens_empty in H. cbn in H. by rewrite Hc in H. Qed.

Lemma splitWsFrom_cons b c s :
  splitWsFrom b (String c s) =
  if is_ws c then
    if b then splitWsFrom true s else EmptyString :: splitWsFrom true s
  else consHead c (splitWsFrom false s).
Proof. reflexivity. Qed.

(** After a separator, and at the start of a string, the pieces of the
    end-trimmed string are its tokens. *)
Lemma splitWs_trimEnd s :
  splitWsFrom true (trimEnd s) = tokensOrBlank s /\
  match s with
  | EmptyString => True
  | String c _ =>
      if is_ws c
      then trimEnd s <> EmptyString ->
           splitWsFrom false (trimEnd s) = EmptyString :: tokensOrBlank s
      else splitWsFrom false (trimEnd s) = tokensOrBlank s
  end.
Proof.
  induction s as [|c s [IHa IHb]]; [done|].
  destruct (is_ws c) eqn:Hc.
  - assert (tokensOrBlank (String c s) = tokensOrBlank s) as Et
      by (unfold tokensOrBlank; cbn [tokens]; by rewrite Hc).
    rewrite Et. destruct (decide (trimEnd s = EmptyString)) as [Ht|Ht].
    + cbn [trimEnd]. rewrite Ht, Hc. split; [|done]. cbn.
      apply trimEnd_tokens_empty in Ht. unfold tokensOrBlank. by rewrite Ht.
    + rewrite trimEnd_cons_ws by done.
      rewrite !splitWsFrom_cons, Hc, IHa. done.
  - rewrite trimEnd_cons_nonws by done. rewrite !splitWsFrom_cons, Hc.
    assert (consHead c (splitWsFrom false (trimEnd s)) = tokensOrBlank (String c s)); [|done].
    unfold tokensOrBlank at 1. cbn [tokens]. rewrite Hc.
    destruct s as [|d s]; [reflexivity|].
    destruct (is_ws d) eqn:Hd.
    + destruct (decide (trimEnd (String d s) = EmptyString)) as [Ht|Ht].
      * rewrite Ht. apply trimEnd_tokens_empty in Ht. rewrite Ht. reflexivity.
      * rewrite IHb by done. cbn [consHead]. unfold tokensOrBlank.
        destruct (tokens (String d s)) eqn:Hk; [|done].
        apply trimEnd_tokens_empty in Hk. congruence.
    + rewrite IHb. unfold tokensOrBlank.
      pose proof (tokens_nonws_nonempty d s Hd).
      destruct (tokens (String d s)); [done|]. reflexivity.
Qed.

Lemma splitWs_trim s : splitWs (trim s) = tokensOrBlank s.
Proof.
  unfold splitWs, trim.
  assert (tokensOrBlank s = tokensOrBlank (trimStart s)) as ->
    by (unfold tokensOrBlank; by rewrite tokens_trimStart).
  destruct (splitWs_trimEnd (trimStart s)) as [Ha Hb].
  destruct (trimStart s) as [|c t] eqn:Hts; [reflexivity|].
  by rewrite (trimStart_head _ _ _ Hts) in Hb.
Qed.

Lemma nameParts_given rawName :
  orEmpty (splitWs (trim rawName) !! 0%nat) = givenName rawName.
Proof.
  rewrite splitWs_trim. unfold tokensOrBlank, givenName. by destruct (tokens rawName).
Qed.

Lemma nameParts_family rawName :
  join " " (drop 1 (splitWs (trim rawName))) = familyName rawName.
Proof.
  rewrite splitWs_trim. unfold tokensOrBlank, familyName. by destruct (tokens rawName).
Qed.

Lemma tokens_example :
  tokens "  John   Q  Public " = ["John"; "Q"; "Public"] /\ tokens "   " = [] /\
  tokens "" = [] /\ tokens "Cher" = ["Cher"].
Proof. repeat split. Qed.

End Tokens.

(** ** The three blocks in closed form *)

Section ClosedForms.

Lemma incomeMapping_run w2Data o :
  incomeMapping w2Data o = (Returns tt, mkForm1040Data (strs o) (incomeNums w2Data (nums o))).
Proof.
  destruct o as [s n]. unfold incomeMapping, incomeNums. cbv zeta.
  destruct (gt (parseAmount (w2Data !! "wages")) 0);
    destruct (gt (parseAmount (w2Data !! "federalTaxWithheld")) 0); reflexivity.
Qed.

Lemma calculateTotalIncome_nums s n :
  calculateTotalIncome (mkForm1040Data s n) = calculateTotalIncome (mkForm1040Data ∅ n).
Proof. reflexivity. Qed.

Lemma calculateDerivedLines_run o :
  calculateDerivedLines o =
  (Returns tt, mkForm1040Data (strs o) (derivedNums (strs o !! "filingStatus") (nums o))).
Proof.
  destruct o as [s n].
  unfold calculateDerivedLines, derivedNums, settle, line32Of, line24Of, line15Of,
    line12Of, standardDeductionApplies.
  cbv zeta. obj_step. rewrite (calculateTotalIncome_nums s n).
  set (line9 := calculateTotalIncome _).
  do 2 obj_step. map_look. do 3 obj_step. map_look.
  rewrite bind_when.
  destruct (negb (truthyNumO (n !! "line12")) && truthyStrO (s !! "filingStatus")).
  - repeat (obj_step; map_look).
    match goal with |- (if ?c then _ else _) _ = _ => destruct c end;
      repeat (obj_step; map_look); reflexivity.
  - repeat (obj_step; map_look).
    match goal with |- (if ?c then _ else _) _ = _ => destruct c end;
      repeat (obj_step; map_look); reflexivity.
Qed.

Lemma strBlock_seq m1 m2 f1 f2 :
  strBlock m1 f1 -> strBlock m2 f2 -> strBlock (m1 ;; m2) (fun s => f1 s ≫= f2).
Proof.
  intros H1 H2 o. specialize (H1 o). rewrite seq_run.
  destruct (f1 (strs o)) as [s1|e]; cbn [mbind Outcome_bind].
  - rewrite H1. apply (H2 (mkForm1040Data s1 (nums o))).
  - destruct (m1 o) as [[?|?] ?]; cbn in *; congruence.
Qed.

Lemma mapEmployeeName_run w2Data : strBlock (mapEmployeeName w2Data) (writeName w2Data).
Proof.
  intros [s n]. unfold mapEmployeeName, writeName. cbn [strs nums].
  rewrite bind_getStr. cbn [strs].
  destruct (truthy (w2Data !! "employeeName") && negb (truthyStrO (s !! "firstName")));
    [|reflexivity].
  cbn [when]. destruct (asString _ (w2Data !! "employeeName")); reflexivity.
Qed.

Lemma mapEmployeeSSN_run w2Data : strBlock (mapEmployeeSSN w2Data) (writeSSN w2Data).
Proof.
  intros [s n]. unfold mapEmployeeSSN, writeSSN. cbn [strs nums].
  rewrite bind_getStr. cbn [strs].
  destruct (truthy (w2Data !! "employeeSSN") && negb (truthyStrO (s !! "ssn")));
    [|reflexivity].
  cbn [when]. destruct (formatSSN (w2Data !! "employeeSSN")); reflexivity.
Qed.

Lemma mapEmployeeAddress_run w2Data :
  strBlock (mapEmployeeAddress w2Data) (writeAddress w2Data).
Proof.
  intros [s n]. unfold mapEmployeeAddress, writeAddress. cbn [strs nums].
  rewrite bind_getStr. cbn [strs].
  destruct (truthy (w2Data !! "employeeAddress") && negb (truthyStrO (s !! "address")));
    [|reflexivity].
  cbn [when]. destruct (parseAddress (w2Data !! "employeeAddress")); reflexivity.
Qed.

Lemma personalInformationMapping_run w2Data :
  strBlock (personalInformationMapping w2Data) (personalStrs w2Data).
Proof.
  unfold personalInformationMapping, personalStrs.
  apply (strBlock_seq _ _ (writeName w2Data)
           (fun s1 => writeSSN w2Data s1 ≫= writeAddress w2Data)).
  - apply mapEmployeeName_run.
  - apply strBlock_seq; [apply mapEmployeeSSN_run | apply mapEmployeeAddress_run].
Qed.

(** The record a call returns. *)
Lemma mergeW2_closed w2Data R :
  mergeW2 w2Data R =
  s ← personalStrs w2Data (strs R);
  Returns (mkForm1040Data s (derivedNums (s !! "filingStatus") (incomeNums w2Data (nums R)))).
Proof.
  unfold mergeW2, mapW2ToForm1040_body. rewrite seq_run.
  pose proof (personalInformationMapping_run w2Data R) as Hp.
  destruct (personalStrs w2Data (strs R)) as [s|e]; cbn [mbind Outcome_bind].
  - rewrite Hp, seq_run, incomeMapping_run, calculateDerivedLines_run. reflexivity.
  - destruct (personalInformationMapping w2Data R) as [[?|?] ?]; cbn in *; congruence.
Qed.

Lemma mergeW2_nums w2Data R M :
  mergeW2 w2Data R = Returns M ->
  nums M = derivedNums (strs M !! "filingStatus") (incomeNums w2Data (nums R)).
Proof.
  rewrite mergeW2_closed. destruct (personalStrs w2Data (strs R)); cbn; [|discriminate].
  intros [= <-]. reflexivity.
Qed.

Lemma mergeW2_strs w2Data R M :
  mergeW2 w2Data R = Returns M -> personalStrs w2Data (strs R) = Returns (strs M).
Proof.
  rewrite mergeW2_closed. destruct (personalStrs w2Data (strs R)); cbn; [|discriminate].
  intros [= <-]. reflexivity.
Qed.

(** *** The numeric lines of the result *)

Lemma not_in_derivedKeys k :
  bool_decide (k ∈ derivedKeys) = false -> k ∉ derivedKeys.
Proof. intros H. by apply bool_decide_eq_false in H. Qed.

Lemma settle_other t p n k :
  k ≠ "line33" -> k ≠ "line34" -> k ≠ "line37" -> settle t p n !! k = n !! k.
Proof. intros. unfold settle. destruct (gt p t); by map_look. Qed.

Lemma derivedNums_other fs n k :
  k ∉ derivedKeys -> derivedNums fs n !! k = n !! k.
Proof.
  intros Hk. unfold derivedKeys in Hk. rewrite !not_elem_of_cons in Hk.
  destruct Hk as (?&?&?&?&?&?&?&?&?&?&_).
  unfold derivedNums. cbv zeta. rewrite settle_other by done.
  map_look. destruct (standardDeductionApplies fs n); by map_look.
Qed.

Lemma derivedNums_line9 fs n :
  derivedNums fs n !! "line9" = Some (calculateTotalIncome (mkForm1040Data ∅ n)).
Proof.
  unfold derivedNums. cbv zeta. rewrite settle_other by done. map_look.
  destruct (standardDeductionApplies fs n); by map_look.
Qed.

Lemma derivedNums_line11 fs n :
  derivedNums fs n !! "line11" = Some (calculateTotalIncome (mkForm1040Data ∅ n)).
Proof.
  unfold derivedNums. cbv zeta. rewrite settle_other by done. map_look.
  destruct (standardDeductionApplies fs n); by map_look.
Qed.

Lemma derivedNums_line12 fs n : derivedNums fs n !! "line12" = line12Of fs n.
Proof.
  unfold derivedNums, line12Of. cbv zeta. rewrite settle_other by done. map_look.
  destruct (standardDeductionApplies fs n); by map_look.
Qed.

Lemma derivedNums_line15 fs n : derivedNums fs n !! "line15" = Some (line15Of fs n).
Proof. unfold derivedNums. cbv zeta. rewrite settle_other by done. by map_look. Qed.

Lemma derivedNums_line16 fs n :
  derivedNums fs n !! "line16" =
  Some (calculateTaxLiability (orZero (Some (line15Of fs n))) fs).
Proof. unfold derivedNums. cbv zeta. rewrite settle_other by done. by map_look. Qed.

Lemma derivedNums_line24 fs n : derivedNums fs n !! "line24" = Some (line24Of fs n).
Proof. unfold derivedNums. cbv zeta. rewrite settle_other by done. by map_look. Qed.

Lemma derivedNums_line32 fs n : derivedNums fs n !! "line32" = Some (line32Of n).
Proof. unfold derivedNums. cbv zeta. rewrite settle_other by done. by map_look. Qed.

Lemma derivedNums_settled fs n :
  let totalTax := orZero (Some (line24Of fs n)) in
  let totalPayments := orZero (Some (line32Of n)) in
  derivedNums fs n !! "line33" =
    Some (if gt totalPayments totalTax then (totalPayments - totalTax)%float else 0%float) /\
  derivedNums fs n !! "line34" =
    Some (if gt totalPayments totalTax then (totalPayments - totalTax)%float else 0%float) /\
  derivedNums fs n !! "line37" =
    Some (if gt totalPayments totalTax then 0%float else (totalTax - totalPayments)%float).
Proof.
  cbv zeta. unfold derivedNums, settle. cbv zeta.
  destruct (gt _ _); by map_look.
Qed.

Lemma incomeNums_line1 w2Data n :
  incomeNums w2Data n !! "line1" = accumulate (n !! "line1") (parseAmount (w2Data !! "wages")).
Proof.
  unfold incomeNums, accumulate. cbv zeta.
  destruct (gt (parseAmount (w2Data !! "wages")) 0);
    destruct (gt (parseAmount (w2Data !! "federalTaxWithheld")) 0); by map_look.
Qed.

Lemma incomeNums_line25a w2Data n :
  incomeNums w2Data n !! "line25a" =
  accumulate (n !! "line25a") (parseAmount (w2Data !! "federalTaxWithheld")).
Proof.
  unfold incomeNums, accumulate. cbv zeta.
  destruct (gt (parseAmount (w2Data !! "wages")) 0);
    destruct (gt (parseAmount (w2Data !! "federalTaxWithheld")) 0); by map_look.
Qed.

Lemma incomeNums_other w2Data n k :
  k ≠ "line1" -> k ≠ "line25a" -> incomeNums w2Data n !! k = n !! k.
Proof.
  intros. unfold incomeNums. cbv zeta.
  destruct (gt (parseAmount (w2Data !! "wages")) 0);
    destruct (gt (parseAmount (w2Data !! "federalTaxWithheld")) 0); by map_look.
Qed.

Lemma incomeNums_none w2Data n :
  gt (parseAmount (w2Data !! "wages")) 0 = false ->
  gt (parseAmount (w2Data !! "federalTaxWithheld")) 0 = false ->
  incomeNums w2Data n = n.
Proof. intros H1 H2. unfold incomeNums. cbv zeta. by rewrite H1, H2. Qed.

Lemma merged_line1 A R RA :
  mergeW2 A R = Returns RA ->
  nums RA !! "line1" = accumulate (nums R !! "line1") (parseAmount (A !! "wages")).
Proof.
  intros H. rewrite (mergeW2_nums _ _ _ H), derivedNums_other, incomeNums_line1; [done|].
  by apply not_in_derivedKeys.
Qed.

Lemma merged_line25a A R RA :
  mergeW2 A R = Returns RA ->
  nums RA !! "line25a" =
  accumulate (nums R !! "line25a") (parseAmount (A !! "federalTaxWithheld")).
Proof.
  intros H. rewrite (mergeW2_nums _ _ _ H), derivedNums_other, incomeNums_line25a; [done|].
  by apply not_in_derivedKeys.
Qed.

Lemma merged_input A R RA k :
  mergeW2 A R = Returns RA -> k ∉ derivedKeys -> k ≠ "line1" -> k ≠ "line25a" ->
  nums RA !! k = nums R !! k.
Proof.
  intros H ???. by rewrite (mergeW2_nums _ _ _ H), derivedNums_other, incomeNums_other.
Qed.

Lemma merged_line9 A R RA :
  mergeW2 A R = Returns RA ->
  nums RA !! "line9" =
  Some (orZero (accumulate (nums R !! "line1") (parseAmount (A !! "wages")))
        + orZero (nums R !! "line2b") + orZero (nums R !! "line3b")
        + orZero (nums R !! "line4b") + orZero (nums R !! "line5b")
        + orZero (nums R !! "line6b") + orZero (nums R !! "line7")
        + orZero (nums R !! "line8"))%float.
Proof.
  intros H. rewrite (mergeW2_nums _ _ _ H), derivedNums_line9.
  unfold calculateTotalIncome. cbn [nums].
  rewrite incomeNums_line1. by rewrite !incomeNums_other by discriminate.
Qed.

Lemma merged_line32 A R RA :
  mergeW2 A R = Returns RA ->
  nums RA !! "line32" =
  Some (orZero (accumulate (nums R !! "line25a") (parseAmount (A !! "federalTaxWithheld")))
        + orZero (nums R !! "line25b") + orZero (nums R !! "line25c")
        + orZero (nums R !! "line25d"))%float.
Proof.
  intros H. rewrite (mergeW2_nums _ _ _ H), derivedNums_line32.
  unfold line32Of. rewrite incomeNums_line25a. by rewrite !incomeNums_other by discriminate.
Qed.

(** *** The derived block is idempotent *)

Lemma total_idem fs n :
  calculateTotalIncome (mkForm1040Data ∅ (derivedNums fs n)) =
  calculateTotalIncome (mkForm1040Data ∅ n).
Proof.
  unfold calculateTotalIncome. cbn [nums].
  by rewrite !derivedNums_other by (by apply not_in_derivedKeys).
Qed.

Lemma line12Of_idem fs n : line12Of fs (derivedNums fs n) = line12Of fs n.
Proof.
  unfold line12Of at 1. unfold standardDeductionApplies. rewrite derivedNums_line12.
  unfold line12Of, standardDeductionApplies.
  destruct (negb (truthyNumO (n !! "line12")) && truthyStrO fs) eqn:Happ.
  - cbn [truthyNumO]. by rewrite getStandardDeduction_truthy.
  - by rewrite Happ.
Qed.

Lemma line15Of_idem fs n : line15Of fs (derivedNums fs n) = line15Of fs n.
Proof.
  unfold line15Of. rewrite total_idem, line12Of_idem.
  by rewrite derivedNums_other by (by apply not_in_derivedKeys).
Qed.

Lemma line24Of_idem fs n : line24Of fs (derivedNums fs n) = line24Of fs n.
Proof.
  unfold line24Of. rewrite line15Of_idem.
  by rewrite !derivedNums_other by (by apply not_in_derivedKeys).
Qed.

Lemma line32Of_idem fs n : line32Of (derivedNums fs n) = line32Of n.
Proof.
  unfold line32Of. by rewrite !derivedNums_other by (by apply not_in_derivedKeys).
Qed.

Lemma derivedNums_idem fs n : derivedNums fs (derivedNums fs n) = derivedNums fs n.
Proof.
  apply map_eq. intros k.
  destruct (decide (k ∈ derivedKeys)) as [Hin|Hout].
  2:{ by rewrite derivedNums_other. }
  destruct (derivedNums_settled fs (derivedNums fs n)) as (H33 & H34 & H37).
  destruct (derivedNums_settled fs n) as (H33' & H34' & H37').
  cbv zeta in *. rewrite line24Of_idem, line32Of_idem in H33, H34, H37.
  unfold derivedKeys in Hin. rewrite !elem_of_cons in Hin.
  destruct Hin as [->|[->|[->|[->|[->|[->|[->|[->|[->|[->|Hin]]]]]]]]]].
  - by rewrite !derivedNums_line9, total_idem.
  - by rewrite !derivedNums_line11, total_idem.
  - by rewrite !derivedNums_line12, line12Of_idem.
  - by rewrite !derivedNums_line15, line15Of_idem.
  - by rewrite !derivedNums_line16, line15Of_idem.
  - by rewrite !derivedNums_line24, line24Of_idem.
  - by rewrite !derivedNums_line32, line32Of_idem.
  - congruence.
  - congruence.
  - congruence.
  - by apply elem_of_nil in Hin.
Qed.

(** *** The identity properties of the result *)

Lemma writeName_other w2Data s s' k :
  writeName w2Data s = Returns s' -> k ≠ "firstName" -> k ≠ "lastName" -> s' !! k = s !! k.
Proof.
  unfold writeName. destruct (_ && _); [|by intros [= <-]].
  destruct (asString _ _); cbn; [|discriminate]. intros [= <-] ??. by map_look.
Qed.

Lemma writeSSN_other w2Data s s' k :
  writeSSN w2Data s = Returns s' -> k ≠ "ssn" -> s' !! k = s !! k.
Proof.
  unfold writeSSN. destruct (_ && _); [|by intros [= <-]].
  destruct (formatSSN _); cbn; [|discriminate]. intros [= <-] ?. by map_look.
Qed.

Lemma writeAddress_other w2Data s s' k :
  writeAddress w2Data s = Returns s' ->
  k ≠ "address" -> k ≠ "city" -> k ≠ "state" -> k ≠ "zipCode" -> s' !! k = s !! k.
Proof.
  unfold writeAddress. destruct (_ && _); [|by intros [= <-]].
  destruct (parseAddress _); cbn; [|discriminate]. intros [= <-] ????. by map_look.
Qed.

Lemma personalStrs_inv w2Data s s' :
  personalStrs w2Data s = Returns s' ->
  exists s1 s2, writeName w2Data s = Returns s1 /\ writeSSN w2Data s1 = Returns s2 /\
                writeAddress w2Data s2 = Returns s'.
Proof.
  unfold personalStrs. destruct (writeName w2Data s) as [s1|]; cbn; [|discriminate].
  destruct (writeSSN w2Data s1) as [s2|] eqn:H2; cbn; [|discriminate].
  intros H3. exists s1, s2. by rewrite H2.
Qed.

Lemma personalStrs_other w2Data s s' k :
  personalStrs w2Data s = Returns s' -> k ∉ identityKeys -> s' !! k = s !! k.
Proof.
  intros (s1 & s2 & H1 & H2 & H3)%personalStrs_inv Hk.
  unfold identityKeys in Hk. rewrite !not_elem_of_cons in Hk.
  destruct Hk as (?&?&?&?&?&?&?&_).
  rewrite (writeAddress_other _ _ _ _ H3), (writeSSN_other _ _ _ _ H2),
    (writeName_other _ _ _ _ H1); done.
Qed.

Lemma mergeW2_filingStatus w2Data R M :
  mergeW2 w2Data R = Returns M -> strs M !! "filingStatus" = strs R !! "filingStatus".
Proof.
  intros HM%mergeW2_strs. apply (personalStrs_other _ _ _ _ HM).
  unfold identityKeys. not_in_keys.
Qed.

Lemma writeName_guard w2Data s s' :
  writeName w2Data s = Returns s' -> truthyStrO (s !! "firstName") = true -> s' = s.
Proof.
  unfold writeName. intros H Hg. rewrite Hg, andb_false_r in H. by injection H.
Qed.

Lemma writeSSN_guard w2Data s s' :
  writeSSN w2Data s = Returns s' -> truthyStrO (s !! "ssn") = true -> s' = s.
Proof.
  unfold writeSSN. intros H Hg. rewrite Hg, andb_false_r in H. by injection H.
Qed.

Lemma writeAddress_guard w2Data s s' :
  writeAddress w2Data s = Returns s' -> truthyStrO (s !! "address") = true -> s' = s.
Proof.
  unfold writeAddress. intros H Hg. rewrite Hg, andb_false_r in H. by injection H.
Qed.

Lemma writeName_written w2Data s rawName :
  w2Data !! "employeeName" = Some (VStr rawName) -> truthyStr rawName = true ->
  truthyStrO (s !! "firstName") = false ->
  writeName w2Data s =
  Returns (<["lastName" := familyName rawName]> (<["firstName" := givenName rawName]> s)).
Proof.
  intros Hn Ht Hf. unfold writeName. rewrite Hn, Hf. cbn [truthy asString]. rewrite Ht.
  cbn. by rewrite nameParts_given, nameParts_family.
Qed.

(** Once a block has run, running it again on a record that still holds
    what it wrote changes nothing. *)
Lemma writeName_settled w2Data s s1 t :
  writeName w2Data s = Returns s1 ->
  t !! "firstName" = s1 !! "firstName" -> t !! "lastName" = s1 !! "lastName" ->
  writeName w2Data t = Returns t.
Proof.
  unfold writeName. intros H Hf Hl. rewrite Hf.
  destruct (truthy (w2Data !! "employeeName")) eqn:Hn; [|reflexivity]. cbn [andb] in *.
  destruct (truthyStrO (s !! "firstName")) eqn:Hs; cbn [negb] in H.
  - injection H as <-. by rewrite Hs.
  - destruct (asString _ _) as [name|]; cbn in H; [|discriminate]. injection H as <-.
    revert Hf Hl. map_look. intros Hf Hl.
    destruct (negb _); [|reflexivity]. cbn. f_equal.
    rewrite (insert_id t "firstName") by done. by rewrite insert_id.
Qed.

Lemma writeSSN_settled w2Data s s1 t :
  writeSSN w2Data s = Returns s1 -> t !! "ssn" = s1 !! "ssn" ->
  writeSSN w2Data t = Returns t.
Proof.
  unfold writeSSN. intros H Hf. rewrite Hf.
  destruct (truthy (w2Data !! "employeeSSN")) eqn:Hn; [|reflexivity]. cbn [andb] in *.
  destruct (truthyStrO (s !! "ssn")) eqn:Hs; cbn [negb] in H.
  - injection H as <-. by rewrite Hs.
  - destruct (formatSSN _) as [v|]; cbn in H; [|discriminate]. injection H as <-.
    revert Hf. map_look. intros Hf.
    destruct (negb _); [|reflexivity]. cbn. f_equal. by rewrite insert_id.
Qed.

Lemma writeAddress_settled w2Data s s1 :
  writeAddress w2Data s = Returns s1 -> writeAddress w2Data s1 = Returns s1.
Proof.
  unfold writeAddress. intros H.
  destruct (truthy (w2Data !! "employeeAddress")) eqn:Hn; [|reflexivity]. cbn [andb] in *.
  destruct (truthyStrO (s !! "address")) eqn:Hs; cbn [negb] in H.
  - injection H as <-. by rewrite Hs.
  - destruct (parseAddress _) as [v|]; cbn in H; [|discriminate]. injection H as <-.
    destruct (negb _); [|reflexivity]. cbn. f_equal.
    apply map_eq. intros k.
    destruct (decide (k = "zipCode")) as [->|]; [by map_look|].
    destruct (decide (k = "state")) as [->|]; [by map_look|].
    destruct (decide (k = "city")) as [->|]; [by map_look|].
    destruct (decide (k = "address")) as [->|]; [by map_look|].
    by map_look.
Qed.

Lemma personalStrs_settled w2Data s s' :
  personalStrs w2Data s = Returns s' -> personalStrs w2Data s' = Returns s'.
Proof.
  intros (s1 & s2 & H1 & H2 & H3)%personalStrs_inv. unfold personalStrs.
  rewrite (writeName_settled _ _ _ s' H1); cbn [mbind Outcome_bind].
  - rewrite (writeSSN_settled _ _ _ s' H2); cbn [mbind Outcome_bind].
    + by apply (writeAddress_settled _ s2).
    + by apply (writeAddress_other _ _ _ _ H3).
  - rewrite (writeAddress_other _ _ _ _ H3) by done.
    by apply (writeSSN_other _ _ _ _ H2).
  - rewrite (writeAddress_other _ _ _ _ H3) by done.
    by apply (writeSSN_other _ _ _ _ H2).
Qed.

(** *** The identifier formatter and the heap *)

Lemma formatSSN_returns v :
  isTruthyNumber v = false -> exists s, formatSSN v = Returns s.
Proof.
  unfold formatSSN. destruct v as [[n|s]|]; cbn.
  - intros ->. cbn. eauto.
  - intros _. destruct (truthyStr s); cbn; [|eauto].
    destruct (_ =? 9)%nat; eauto.
  - eauto.
Qed.

Lemma formatSSN_throws v :
  isTruthyNumber v = true -> exists e, formatSSN v = Throws e.
Proof.
  unfold formatSSN. destruct v as [[n|s]|]; cbn; try discriminate.
  intros ->. cbn. eauto.
Qed.

Lemma mapW2ToForm1040_run w2Data ex (h : Heap) R :
  h !! ex = Some R ->
  let l := fresh (dom h) in
  mapW2ToForm1040 w2Data (Some ex) h =
  (match mapW2ToForm1040_body w2Data R with
   | (Returns _, _) => Returns l
   | (Throws e, _) => Throws e
   end,
   <[l := snd (mapW2ToForm1040_body w2Data R)]> (<[l := R]> h)).
Proof.
  intros Hex. cbv zeta. unfold mapW2ToForm1040, spread, onObject.
  unfold mbind, HeapM_bind. rewrite Hex. cbn [default from_option id].
  rewrite lookup_insert_eq. cbn [default from_option id].
  destruct (mapW2ToForm1040_body w2Data R) as [[[]|e] o']; reflexivity.
Qed.

End ClosedForms.

(** ** The claims *)

(** C1: the worked example.  Merging wages 50000 and federal withholding
    5000 into a record whose only populated property is the filing status
    single returns a record with total income 50000, AGI 50000, standard
    deduction 13850, taxable income 36150, tax liability 4118, total tax
    4118, total payments 5000, refund 882 and amount owed 0. *)
Theorem worked_example :
  exists r, mergeW2 exampleW2 exampleExisting = Returns r /\
    nums r !! "line9" = Some 50000%float /\
    nums r !! "line11" = Some 50000%float /\
    nums r !! "line12" = Some 13850%float /\
    nums r !! "line15" = Some 36150%float /\
    nums r !! "line16" = Some 4118%float /\
    nums r !! "line24" = Some 4118%float /\
    nums r !! "line32" = Some 5000%float /\
    nums r !! "line33" = Some 882%float /\
    nums r !! "line37" = Some 0%float.
Proof.
  eexists. split; [vm_compute; reflexivity|].
  repeat split; vm_compute; reflexivity.
Qed.

(** The same document with its amounts as printed text gives the same
    lines, and its identity data is split and formatted. *)
Lemma worked_example_from_text :
  let r := mergeW2 exampleW2Text exampleExisting in
  lineOf "line16" r = Some 4118%float /\ lineOf "line33" r = Some 882%float /\
  strOf "firstName" r = Some "John" /\ strOf "lastName" r = Some "Q Public" /\
  strOf "ssn" r = Some "123-45-6789" /\ strOf "address" r = Some "123 Main St, Apt 4" /\
  strOf "city" r = Some "Springfield" /\ strOf "state" r = Some "IL" /\
  strOf "zipCode" r = Some "62704".
Proof. repeat split; vm_compute; reflexivity. Qed.

(** C2, as amended: when the starting record has no wages (line1) and no
    withholding (line25a) accumulated yet, merging A then B gives the same
    total-income line (line9) and total-payments line (line32) as merging
    B then A, whenever both orders return a record. *)
Theorem totals_commute A B R RA RAB RB RBA :
  truthyNumO (nums R !! "line1") = false ->
  truthyNumO (nums R !! "line25a") = false ->
  mergeW2 A R = Returns RA -> mergeW2 B RA = Returns RAB ->
  mergeW2 B R = Returns RB -> mergeW2 A RB = Returns RBA ->
  nums RAB !! "line9" = nums RBA !! "line9" /\
  nums RAB !! "line32" = nums RBA !! "line32".
Proof.
  intros H1 H25 HA HAB HB HBA.
  rewrite (merged_line9 _ _ _ HAB), (merged_line9 _ _ _ HBA).
  rewrite (merged_line32 _ _ _ HAB), (merged_line32 _ _ _ HBA).
  rewrite (merged_line1 _ _ _ HA), (merged_line1 _ _ _ HB).
  rewrite (merged_line25a _ _ _ HA), (merged_line25a _ _ _ HB).
  rewrite (accumulate_swap _ _ _ H1), (accumulate_swap _ _ _ H25).
  rewrite !(merged_input _ _ _ _ HA), !(merged_input _ _ _ _ HB);
    try discriminate; try (by apply not_in_derivedKeys).
  done.
Qed.

Lemma totals_commute_witness :
  nums (returned (mergeTwice docA docB emptyForm)) !! "line9" =
    nums (returned (mergeTwice docB docA emptyForm)) !! "line9" /\
  nums (returned (mergeTwice docA docB emptyForm)) !! "line32" =
    nums (returned (mergeTwice docB docA emptyForm)) !! "line32".
Proof.
  apply (totals_commute docA docB emptyForm
           (returned (mergeW2 docA emptyForm)) _
           (returned (mergeW2 docB emptyForm)) _);
    vm_compute; reflexivity.
Defined.

(** C2 as stated fails: on a record that already holds wages 50000, the
    documents with wages 25000.10 and 7500.30 give total income
    82500.40000000001 in one order and 82500.4 in the other. *)
Lemma totals_order_dependent :
  lineOf "line9" (mergeTwice docA docB priorRecord) = Some 82500.40000000001%float /\
  lineOf "line9" (mergeTwice docB docA priorRecord) = Some 82500.4%float /\
  lineOf "line9" (mergeTwice docA docB priorRecord) <>
    lineOf "line9" (mergeTwice docB docA priorRecord).
Proof.
  split; [vm_compute; reflexivity|]. split; [vm_compute; reflexivity|].
  intros H.
  apply (f_equal (fun v => match v with Some x => Prim2SF x | None => S754_nan end)) in H.
  vm_compute in H. discriminate.
Qed.

(** Without positive wages and positive withholding in the document,
    merging it again into its own result returns that result unchanged. *)
Lemma remerge_same_without_amounts X R M :
  gt (parseAmount (X !! "wages")) 0 = false ->
  gt (parseAmount (X !! "federalTaxWithheld")) 0 = false ->
  mergeW2 X R = Returns M ->
  mergeW2 X M = Returns M.
Proof.
  intros Hw Hf HM.
  pose proof (mergeW2_strs _ _ _ HM) as Hs. pose proof (mergeW2_nums _ _ _ HM) as Hn.
  rewrite mergeW2_closed, (personalStrs_settled _ _ _ Hs). cbn [mbind Outcome_bind].
  rewrite (incomeNums_none _ _ Hw Hf). rewrite Hn at 1.
  rewrite (incomeNums_none _ _ Hw Hf), derivedNums_idem.
  rewrite (incomeNums_none _ _ Hw Hf) in Hn. rewrite <- Hn. by destruct M.
Qed.

(** Merging a document into its own result returns, with the identity
    fields of that result. *)
Lemma remerge_returns X R M :
  mergeW2 X R = Returns M ->
  mergeW2 X M =
  Returns (mkForm1040Data (strs M)
             (derivedNums (strs M !! "filingStatus") (incomeNums X (nums M)))).
Proof.
  intros HM. pose proof (mergeW2_strs _ _ _ HM) as Hs.
  by rewrite mergeW2_closed, (personalStrs_settled _ _ _ Hs).
Qed.

(** C3, as amended: merging a document again into its own result returns
    and leaves the identity fields as they are, but it counts the amounts
    again: when the parsed wages are positive, line 1 of the second result
    is line 1 of the first plus the wages, and likewise line 25a with the
    withholding.  Only when neither amount is positive is the second
    result the first. *)
Theorem remerge_counts_amounts_again X R M :
  mergeW2 X R = Returns M ->
  exists M',
    mergeW2 X M = Returns M' /\
    strs M' = strs M /\
    nums M' !! "line1" =
      (if gt (parseAmount (X !! "wages")) 0
       then Some (orZero (nums M !! "line1") + parseAmount (X !! "wages"))%float
       else nums M !! "line1") /\
    nums M' !! "line25a" =
      (if gt (parseAmount (X !! "federalTaxWithheld")) 0
       then Some (orZero (nums M !! "line25a") + parseAmount (X !! "federalTaxWithheld"))%float
       else nums M !! "line25a") /\
    (gt (parseAmount (X !! "wages")) 0 = false ->
     gt (parseAmount (X !! "federalTaxWithheld")) 0 = false -> M' = M).
Proof.
  intros HM. pose proof (remerge_returns _ _ _ HM) as HM'.
  eexists. split; [exact HM'|]. split; [reflexivity|].
  split; [exact (merged_line1 _ _ _ HM')|]. split; [exact (merged_line25a _ _ _ HM')|].
  intros Hw Hf. rewrite (remerge_same_without_amounts _ _ _ Hw Hf HM) in HM'.
  by injection HM' as <-.
Qed.

Lemma remerge_counts_amounts_again_witness :
  let M := returned (mergeW2 exampleW2 exampleExisting) in
  exists M',
    mergeW2 exampleW2 M = Returns M' /\
    nums M' !! "line1" =
      Some (orZero (nums M !! "line1") + parseAmount (exampleW2 !! "wages"))%float.
Proof.
  intros M.
  destruct (remerge_counts_amounts_again exampleW2 exampleExisting M
              ltac:(vm_compute; reflexivity)) as (M' & Hrun & _ & Hline1 & _).
  exists M'. split; [exact Hrun|exact Hline1].
Defined.

(** C3 as stated fails: the document with wages 50000 merged into the
    record that knows the filing status gives line 1 = 50000, and merged
    again into that result gives line 1 = 100000. *)
Lemma remerge_adds_again :
  lineOf "line1" (mergeW2 exampleW2 exampleExisting) = Some 50000%float /\
  lineOf "line1" (mergeTwice exampleW2 exampleW2 exampleExisting) = Some 100000%float /\
  mergeTwice exampleW2 exampleW2 exampleExisting <> mergeW2 exampleW2 exampleExisting.
Proof.
  split; [vm_compute; reflexivity|]. split; [vm_compute; reflexivity|].
  intros H.
  apply (f_equal (fun r => match lineOf "line1" r with
                           | Some x => Prim2SF x | None => S754_nan end)) in H.
  vm_compute in H. discriminate.
Qed.

(** C4, as amended: each identity group is guarded by its leading
    property.  When the given name is already non-empty the name parts are
    left unchanged, when the identifier is already non-empty it is left
    unchanged, and when the street line is already non-empty the four
    address components are left unchanged. *)
Theorem identity_first_write_wins w2Data R M :
  mergeW2 w2Data R = Returns M ->
  (truthyStrO (strs R !! "firstName") = true ->
     strs M !! "firstName" = strs R !! "firstName" /\
     strs M !! "lastName" = strs R !! "lastName") /\
  (truthyStrO (strs R !! "ssn") = true -> strs M !! "ssn" = strs R !! "ssn") /\
  (truthyStrO (strs R !! "address") = true ->
     strs M !! "address" = strs R !! "address" /\
     strs M !! "city" = strs R !! "city" /\
     strs M !! "state" = strs R !! "state" /\
     strs M !! "zipCode" = strs R !! "zipCode").
Proof.
  intros HM%mergeW2_strs.
  destruct (personalStrs_inv _ _ _ HM) as (s1 & s2 & H1 & H2 & H3).
  split; [|split].
  - intros Hg. rewrite (writeName_guard _ _ _ H1 Hg) in *.
    by rewrite !(writeAddress_other _ _ _ _ H3), !(writeSSN_other _ _ _ _ H2).
  - intros Hg.
    assert (s1 !! "ssn" = strs R !! "ssn") as E by (by apply (writeName_other _ _ _ _ H1)).
    rewrite <- E in Hg. rewrite (writeSSN_guard _ _ _ H2 Hg) in *.
    by rewrite (writeAddress_other _ _ _ _ H3).
  - intros Hg.
    assert (forall k, k ∉ ["firstName"; "lastName"; "ssn"] -> s2 !! k = strs R !! k) as E.
    { intros k Hk. rewrite !not_elem_of_cons in Hk. destruct Hk as (?&?&?&_).
      by rewrite (writeSSN_other _ _ _ _ H2), (writeName_other _ _ _ _ H1). }
    assert (s2 !! "address" = strs R !! "address") as Ea by (apply E; not_in_keys).
    rewrite <- Ea in Hg. rewrite (writeAddress_guard _ _ _ H3 Hg).
    repeat split; apply E; not_in_keys.
Qed.

Lemma identity_first_write_wins_witness :
  let M := returned (mergeW2 laterDocument recordWithNames) in
  (strs M !! "firstName" = strs recordWithNames !! "firstName" /\
   strs M !! "lastName" = strs recordWithNames !! "lastName") /\
  strs M !! "ssn" = strs recordWithNames !! "ssn" /\
  (strs M !! "address" = strs recordWithNames !! "address" /\
   strs M !! "city" = strs recordWithNames !! "city" /\
   strs M !! "state" = strs recordWithNames !! "state" /\
   strs M !! "zipCode" = strs recordWithNames !! "zipCode").
Proof.
  intros M.
  destruct (identity_first_write_wins laterDocument recordWithNames M)
    as (Hname & Hssn & Haddr); [vm_compute; reflexivity|].
  split; [apply Hname; vm_compute; reflexivity|].
  split; [apply Hssn; vm_compute; reflexivity|].
  apply Haddr; vm_compute; reflexivity.
Defined.

(** C4 as stated fails: a first document whose address has no street line
    sets city, state and zip; a later document overwrites all three. *)
Lemma present_city_overwritten :
  strOf "city" (mergeW2 earlierDocument emptyForm) = Some "Springfield" /\
  strOf "state" (mergeW2 earlierDocument emptyForm) = Some "IL" /\
  strOf "city" (mergeTwice earlierDocument laterDocument emptyForm) = Some "Boston" /\
  strOf "state" (mergeTwice earlierDocument laterDocument emptyForm) = Some "MA".
Proof. repeat split; vm_compute; reflexivity. Qed.

(** An empty raw name fails the guard of the name block. *)
Lemma writeName_empty w2Data s rawName :
  w2Data !! "employeeName" = Some (VStr rawName) -> truthyStr rawName = false ->
  writeName w2Data s = Returns s.
Proof. intros Hn Ht. unfold writeName. rewrite Hn. cbn [truthy]. by rewrite Ht. Qed.

(** C5, as amended: for a raw name that is a string, merged into a record
    without a given name, the name block never throws.  When the raw name
    is not empty the given name becomes the first white-space-separated
    token of the raw name and the family name the remaining tokens joined
    by one space, and a raw name without tokens (white space only) gives
    the empty string for both.  When the raw name is the empty string
    nothing is written: both name parts stay as the record had them. *)
Theorem name_is_split w2Data R rawName :
  w2Data !! "employeeName" = Some (VStr rawName) ->
  truthyStrO (strs R !! "firstName") = false ->
  let written (part : string) (before : option string) :=
    if truthyStr rawName then Some part else before in
  (exists o, mapEmployeeName w2Data R = (Returns tt, o) /\
     strs o !! "firstName" = written (givenName rawName) (strs R !! "firstName") /\
     strs o !! "lastName" = written (familyName rawName) (strs R !! "lastName")) /\
  (forall M, mergeW2 w2Data R = Returns M ->
     strs M !! "firstName" = written (givenName rawName) (strs R !! "firstName") /\
     strs M !! "lastName" = written (familyName rawName) (strs R !! "lastName")) /\
  (tokens rawName = [] -> givenName rawName = "" /\ familyName rawName = "") /\
  (truthyStr rawName = false <-> rawName = "").
Proof.
  intros Hn Hf. cbv zeta.
  assert (writeName w2Data (strs R) =
          Returns (if truthyStr rawName
                   then <["lastName" := familyName rawName]>
                          (<["firstName" := givenName rawName]> (strs R))
                   else strs R)) as Hw.
  { destruct (truthyStr rawName) eqn:Ht.
    - by apply writeName_written.
    - by apply (writeName_empty _ _ rawName). }
  split; [|split; [|split]].
  - pose proof (mapEmployeeName_run w2Data R) as Hrun. rewrite Hw in Hrun.
    eexists. split; [exact Hrun|]. cbn [strs].
    destruct (truthyStr rawName); split; by map_look.
  - intros M HM%mergeW2_strs.
    destruct (personalStrs_inv _ _ _ HM) as (s1 & s2 & H1 & H2 & H3).
    rewrite Hw in H1. injection H1 as <-.
    rewrite !(writeAddress_other _ _ _ _ H3), !(writeSSN_other _ _ _ _ H2) by done.
    destruct (truthyStr rawName); split; by map_look.
  - unfold givenName, familyName. by intros ->.
  - by destruct rawName.
Qed.

Lemma name_is_split_witness :
  let M := returned (mergeW2 exampleW2Text emptyForm) in
  strs M !! "firstName" = Some "John" /\ strs M !! "lastName" = Some "Q Public".
Proof.
  intros M.
  destruct (name_is_split exampleW2Text emptyForm "  John  Q Public ")
    as (_ & Hmerge & _); [vm_compute; reflexivity ..|].
  exact (Hmerge M ltac:(vm_compute; reflexivity)).
Defined.

(** C5 as stated fails: merged into the empty record, a document whose
    name is the empty string leaves both name parts absent; they are not
    set to the empty string. *)
Lemma empty_name_writes_nothing :
  exists M,
    mergeW2 emptyNameDocument emptyForm = Returns M /\
    strs M !! "firstName" = None /\ strs M !! "lastName" = None /\
    strs M !! "firstName" <> Some "" /\ strs M !! "lastName" <> Some "".
Proof.
  exists (returned (mergeW2 emptyNameDocument emptyForm)).
  split; [vm_compute; reflexivity|].
  assert (strs (returned (mergeW2 emptyNameDocument emptyForm)) !! "firstName" = None) as H1
    by (vm_compute; reflexivity).
  assert (strs (returned (mergeW2 emptyNameDocument emptyForm)) !! "lastName" = None) as H2
    by (vm_compute; reflexivity).
  rewrite H1, H2. by repeat split.
Qed.

(** C6: in every record merge returns, with total tax and total payments
    read from line24 and line32 (zero by default): when payments exceed
    tax, the refund line is payments minus tax, the requested-refund line
    is the same amount and the amount owed is zero; otherwise the amount
    owed is tax minus payments and both refund lines are zero.  The refund
    and the amount owed are never both positive. *)
Theorem settlement w2Data R M :
  mergeW2 w2Data R = Returns M ->
  let totalTax := orZero (nums M !! "line24") in
  let totalPayments := orZero (nums M !! "line32") in
  (gt totalPayments totalTax = true ->
     nums M !! "line33" = Some (totalPayments - totalTax)%float /\
     nums M !! "line34" = Some (totalPayments - totalTax)%float /\
     nums M !! "line37" = Some 0%float) /\
  (gt totalPayments totalTax = false ->
     nums M !! "line37" = Some (totalTax - totalPayments)%float /\
     nums M !! "line33" = Some 0%float /\
     nums M !! "line34" = Some 0%float) /\
  (forall refund owed,
     nums M !! "line33" = Some refund -> nums M !! "line37" = Some owed ->
     gt refund 0 && gt owed 0 = false).
Proof.
  intros HM. cbv zeta. rewrite (mergeW2_nums _ _ _ HM).
  set (fs := strs M !! "filingStatus"). set (n := incomeNums w2Data (nums R)).
  rewrite derivedNums_line24, derivedNums_line32.
  destruct (derivedNums_settled fs n) as (H33 & H34 & H37). cbv zeta in *.
  rewrite H33, H34, H37.
  destruct (gt _ _) eqn:Hgt.
  - split; [done|]. split; [done|]. intros refund owed _ [= <-]. apply andb_false_r.
  - split; [done|]. split; [done|]. intros refund owed [= <-] _. reflexivity.
Qed.

Lemma settlement_witness :
  let M := returned (mergeW2 exampleW2 exampleExisting) in
  nums M !! "line33" = Some (orZero (nums M !! "line32") - orZero (nums M !! "line24"))%float /\
  nums M !! "line34" = Some (orZero (nums M !! "line32") - orZero (nums M !! "line24"))%float /\
  nums M !! "line37" = Some 0%float.
Proof.
  intros M.
  destruct (settlement exampleW2 exampleExisting M) as (Hrefund & _ & _);
    [vm_compute; reflexivity|].
  apply Hrefund. vm_compute; reflexivity.
Defined.

(** C7: a call that receives a reference to the caller's record leaves that
    record, and every other object of the heap, as it was, whether it
    returns or throws; what it returns is a reference to a new object that
    holds the merged record. *)
Theorem existing_record_not_mutated w2Data ex (h : Heap) R r h' :
  h !! ex = Some R ->
  mapW2ToForm1040 w2Data (Some ex) h = (r, h') ->
  h' !! ex = Some R /\
  (forall l o, h !! l = Some o -> h' !! l = Some o) /\
  (forall l, r = Returns l ->
     h !! l = None /\ l <> ex /\
     exists M, mergeW2 w2Data R = Returns M /\ h' !! l = Some M).
Proof.
  intros Hex Hrun. rewrite (mapW2ToForm1040_run _ _ _ _ Hex) in Hrun. cbv zeta in Hrun.
  injection Hrun as Hr Hh.
  assert (h !! fresh (dom h) = None) as Hfresh
    by (apply not_elem_of_dom, is_fresh).
  assert (forall l o, h !! l = Some o -> h' !! l = Some o) as Hframe.
  { intros l o Hl. subst h'. rewrite insert_insert_eq.
    rewrite lookup_insert_ne; [done|]. intros Heq. rewrite <- Heq in Hl. congruence. }
  split; [by apply Hframe|]. split; [done|].
  intros l ->. unfold mergeW2.
  destruct (mapW2ToForm1040_body w2Data R) as [[[]|e] o']; [|discriminate].
  injection Hr as <-. split; [done|]. split; [congruence|].
  exists o'. split; [done|]. subst h'. cbn. by rewrite lookup_insert_eq.
Qed.

Lemma existing_record_not_mutated_witness :
  snd (mapW2ToForm1040 exampleW2 (Some 1%positive) exampleHeap) !! 1%positive =
  Some exampleExisting.
Proof.
  assert (exampleHeap !! 1%positive = Some exampleExisting) as Hex
    by (vm_compute; reflexivity).
  exact (proj1 (existing_record_not_mutated exampleW2 1%positive exampleHeap
                  exampleExisting _ _ Hex (surjective_pairing _))).
Defined.

(** C8, as amended: the empty bag is invalid with exactly the three errors
    for wages, identifier and name; a bag that has a non-empty, non-zero
    value for wages, for the identifier and for the name under one of the
    accepted keys, and no such value for federal withholding, employer
    name and employer identifier, is valid with no error and exactly three
    warnings; validity holds exactly when the error list is empty, so two
    bags with the same errors are equally valid whatever their warnings. *)
Theorem validation_outcomes :
  validateW2DataForMapping ∅ =
    mkValidationResult false
      ["W2 wages (Box 1) is required but not found";
       "Employee SSN is required but not found";
       "Employee name is required but not found"]
      ["Federal tax withheld (Box 2) not found - no withholdings will be applied";
       "Employer name not found - may be needed for verification";
       "Employer EIN not found - may be needed for verification"] /\
  (forall w2Data : W2Data,
     truthy (w2Data !! "wages") || truthy (w2Data !! "line1") = true ->
     truthy (w2Data !! "employeeSSN") || truthy (w2Data !! "ssn") = true ->
     truthy (w2Data !! "employeeName") || truthy (w2Data !! "firstName")
       || truthy (w2Data !! "lastName") = true ->
     truthy (w2Data !! "federalTaxWithheld") = false ->
     truthy (w2Data !! "employerName") = false ->
     truthy (w2Data !! "employerEIN") = false ->
     validateW2DataForMapping w2Data =
       mkValidationResult true []
         ["Federal tax withheld (Box 2) not found - no withholdings will be applied";
          "Employer name not found - may be needed for verification";
          "Employer EIN not found - may be needed for verification"]) /\
  (forall w2Data : W2Data,
     isValid (validateW2DataForMapping w2Data) = true <->
     errors (validateW2DataForMapping w2Data) = []) /\
  (forall w2Data w2Data' : W2Data,
     errors (validateW2DataForMapping w2Data) = errors (validateW2DataForMapping w2Data') ->
     isValid (validateW2DataForMapping w2Data) = isValid (validateW2DataForMapping w2Data')).
Proof.
  split; [vm_compute; reflexivity|]. split; [|split].
  - intros w2Data Hw Hs Hn Hf He1 He2. unfold validateW2DataForMapping. cbv zeta.
    rewrite Hf, He1, He2.
    destruct (truthy (w2Data !! "wages")), (truthy (w2Data !! "line1")); try discriminate;
      destruct (truthy (w2Data !! "employeeSSN")), (truthy (w2Data !! "ssn"));
      try discriminate;
      destruct (truthy (w2Data !! "employeeName")), (truthy (w2Data !! "firstName")),
        (truthy (w2Data !! "lastName")); try discriminate; reflexivity.
  - intros w2Data. unfold validateW2DataForMapping. cbv zeta. cbn [isValid errors].
    match goal with |- context [(length ?e =? 0)%nat] => destruct e end;
      cbn; split; congruence.
  - intros w2Data w2Data'. unfold validateW2DataForMapping. cbv zeta. cbn [isValid errors].
    by intros ->.
Qed.

Lemma validation_outcomes_witness :
  validateW2DataForMapping requiredOnly =
    mkValidationResult true []
      ["Federal tax withheld (Box 2) not found - no withholdings will be applied";
       "Employer name not found - may be needed for verification";
       "Employer EIN not found - may be needed for verification"].
Proof.
  apply (proj1 (proj2 validation_outcomes) requiredOnly); vm_compute; reflexivity.
Defined.

(** C8 as stated fails: a bag that contains wages (of zero), an identifier
    and a name is reported invalid, with the wages error. *)
Lemma zero_wages_rejected :
  zeroWages !! "wages" = Some (VNum 0) /\
  validateW2DataForMapping zeroWages =
    mkValidationResult false
      ["W2 wages (Box 1) is required but not found"]
      ["Federal tax withheld (Box 2) not found - no withholdings will be applied";
       "Employer name not found - may be needed for verification";
       "Employer EIN not found - may be needed for verification"].
Proof. split; vm_compute; reflexivity. Qed.

(** X24. [createMappingSummary] on every raw record: when the identifier
    is absent, empty, zero, [NaN] or a string, the summary returns and
    holds exactly one entry for each item of the six-item checklist whose
    raw value is truthy (not absent, empty, zero or [NaN]), in checklist
    order, with the item's label, raw value and target line; when the
    identifier is a number other than zero and [NaN], the summary throws. *)
Theorem summary_follows_checklist (w2Data : W2Data) :
  (isTruthyNumber (w2Data !! "employeeSSN") = false ->
   exists mappings,
     createMappingSummary w2Data = Returns mappings /\
     map entryView mappings = expectedEntries w2Data) /\
  (isTruthyNumber (w2Data !! "employeeSSN") = true ->
   exists e, createMappingSummary w2Data = Throws e).
Proof.
  split.
  - intros Hssn. destruct (formatSSN_returns _ Hssn) as [s Hs].
    unfold createMappingSummary, expectedEntries, summaryChecklist. cbv zeta.
    rewrite Hs. cbn [List.filter rawKey map label targetLine].
    destruct (truthy (w2Data !! "employeeName")), (truthy (w2Data !! "employeeSSN")),
      (truthy (w2Data !! "wages")), (truthy (w2Data !! "federalTaxWithheld")),
      (truthy (w2Data !! "socialSecurityWages")), (truthy (w2Data !! "medicareWages"));
      eexists; (split; [reflexivity|reflexivity]).
  - intros Hssn. destruct (formatSSN_throws _ Hssn) as [e He].
    assert (truthy (w2Data !! "employeeSSN") = true) as Ht.
    { destruct (w2Data !! "employeeSSN") as [[n|s]|]; cbn in *; congruence. }
    unfold createMappingSummary. cbv zeta. rewrite Ht, He. cbn. eauto.
Qed.

Lemma summary_follows_checklist_witness :
  exists mappings,
    createMappingSummary exampleW2Text = Returns mappings /\
    map entryView mappings = expectedEntries exampleW2Text.
Proof.
  apply (proj1 (summary_follows_checklist exampleW2Text)). vm_compute; reflexivity.
Defined.

(** C9: the summary is to skip and never raise, but on the raw record
    whose identifier is the number 123456789 it throws a TypeError:
    [formatSSN] calls [replace] on the number.  That record is what
    [processW2Fields] makes of an extraction whose [Employee.SSN] is
    123456789. *)
Lemma summary_raises_on_numeric_identifier :
  createMappingSummary numericIdentifier =
    Throws (TypeError "ssn.replace is not a function") /\
  processW2Fields extractedIdentifier ∅ = numericIdentifier.
Proof. split; vm_compute; reflexivity. Qed.

(** C10: merge never writes the filing status; and when the existing record
    has no filing status and no standard deduction set, the returned
    record carries none either (it counts as zero) and its taxable income
    is AGI minus the itemized-deduction line, floored at zero. *)
Theorem no_filing_status_no_deduction w2Data R M :
  mergeW2 w2Data R = Returns M ->
  strs M !! "filingStatus" = strs R !! "filingStatus" /\
  (truthyStrO (strs R !! "filingStatus") = false ->
   truthyNumO (nums R !! "line12") = false ->
   nums M !! "line12" = nums R !! "line12" /\
   orZero (nums M !! "line12") = 0%float /\
   nums M !! "line15" =
     Some (Math_max 0 (orZero (nums M !! "line11") - orZero (nums M !! "line13"))%float)).
Proof.
  intros HM. pose proof (mergeW2_filingStatus _ _ _ HM) as Hfs.
  split; [done|]. intros Hno H12.
  rewrite (mergeW2_nums _ _ _ HM), Hfs.
  set (n := incomeNums w2Data (nums R)).
  assert (n !! "line12" = nums R !! "line12") as Hn12
    by (apply incomeNums_other; discriminate).
  assert (line12Of (strs R !! "filingStatus") n = nums R !! "line12") as H12Of.
  { unfold line12Of, standardDeductionApplies. by rewrite Hno, andb_false_r. }
  rewrite derivedNums_line12, derivedNums_line15, derivedNums_line11, H12Of.
  rewrite (derivedNums_other _ n "line13") by (by apply not_in_derivedKeys).
  split; [done|]. split; [by apply orZero_falsy|].
  unfold line15Of. rewrite H12Of, (orZero_falsy _ H12), sub_zero_r. done.
Qed.

Lemma no_filing_status_no_deduction_witness :
  let M := returned (mergeW2 exampleW2 emptyForm) in
  nums M !! "line12" = nums emptyForm !! "line12" /\
  orZero (nums M !! "line12") = 0%float /\
  nums M !! "line15" =
    Some (Math_max 0 (orZero (nums M !! "line11") - orZero (nums M !! "line13"))%float).
Proof.
  intros M.
  destruct (no_filing_status_no_deduction exampleW2 emptyForm M) as [_ H];
    [vm_compute; reflexivity|].
  apply H; vm_compute; reflexivity.
Defined.

(** Without a filing status the worked example is taxed on all 50000. *)
Lemma no_filing_status_example :
  lineOf "line12" (mergeW2 exampleW2 emptyForm) = None /\
  lineOf "line15" (mergeW2 exampleW2 emptyForm) = Some 50000%float /\
  strOf "filingStatus" (mergeW2 exampleW2 emptyForm) = None.
Proof. repeat split; vm_compute; reflexivity. Qed.

(** ** Further properties of the code *)

(** *** When the mapper throws *)

Lemma writeName_outcome w2Data s :
  if isTruthyNumber (w2Data !! "employeeName") && negb (truthyStrO (s !! "firstName"))
  then exists e, writeName w2Data s = Throws e
  else exists s1, writeName w2Data s = Returns s1.
Proof.
  unfold writeName. destruct (w2Data !! "employeeName") as [[n|str]|]; cbn [isTruthyNumber truthy].
  - destruct (truthyNum n), (truthyStrO (s !! "firstName")); cbn; eauto.
  - cbn [andb]. destruct (truthyStr str && negb _); cbn; eauto.
  - cbn. eauto.
Qed.

Lemma writeSSN_outcome w2Data s :
  if isTruthyNumber (w2Data !! "employeeSSN") && negb (truthyStrO (s !! "ssn"))
  then exists e, writeSSN w2Data s = Throws e
  else exists s1, writeSSN w2Data s = Returns s1.
Proof.
  unfold writeSSN. destruct (isTruthyNumber (w2Data !! "employeeSSN")) eqn:Hn.
  - destruct (formatSSN_throws _ Hn) as [e He]. rewrite He.
    assert (truthy (w2Data !! "employeeSSN") = true) as ->
      by (destruct (w2Data !! "employeeSSN") as [[?|?]|]; cbn in *; congruence).
    destruct (truthyStrO (s !! "ssn")); cbn; eauto.
  - destruct (formatSSN_returns _ Hn) as [v Hv]. rewrite Hv. cbn [andb].
    destruct (_ && _); cbn; eauto.
Qed.

Lemma parseAddress_outcome v :
  truthy v = true ->
  if isTruthyNumber v then exists e, parseAddress v = Throws e
  else exists a, parseAddress v = Returns a.
Proof.
  unfold parseAddress. destruct v as [[n|s]|]; cbn; try discriminate.
  - intros ->. eauto.
  - intros _. match goal with |- context [if ?c then _ else _] => destruct c end; eauto.
Qed.

Lemma writeAddress_outcome w2Data s :
  if isTruthyNumber (w2Data !! "employeeAddress") && negb (truthyStrO (s !! "address"))
  then exists e, writeAddress w2Data s = Throws e
  else exists s1, writeAddress w2Data s = Returns s1.
Proof.
  unfold writeAddress. destruct (truthy (w2Data !! "employeeAddress")) eqn:Ht.
  - pose proof (parseAddress_outcome _ Ht) as Hp.
    destruct (isTruthyNumber (w2Data !! "employeeAddress")).
    + destruct Hp as [e ->]. destruct (truthyStrO (s !! "address")); cbn; eauto.
    + destruct Hp as [a ->]. cbn [andb]. destruct (negb _); cbn; eauto.
  - assert (isTruthyNumber (w2Data !! "employeeAddress") = false) as ->
      by (destruct (w2Data !! "employeeAddress") as [[?|?]|]; cbn in *; congruence).
    cbn. eauto.
Qed.

(** X1. [mapW2ToForm1040] throws exactly when one of [employeeName],
    [employeeSSN], [employeeAddress] is a number other than [0] and [NaN]
    while the record has no non-empty [firstName], [ssn], [address]
    respectively: the guarded block then calls a string method on the
    number.  In every other case the call returns. *)
Theorem merge_throws_exactly_on_numeric_identity w2Data R :
  (exists e, mergeW2 w2Data R = Throws e) <->
  (isTruthyNumber (w2Data !! "employeeName") = true /\
     truthyStrO (strs R !! "firstName") = false) \/
  (isTruthyNumber (w2Data !! "employeeSSN") = true /\
     truthyStrO (strs R !! "ssn") = false) \/
  (isTruthyNumber (w2Data !! "employeeAddress") = true /\
     truthyStrO (strs R !! "address") = false).
Proof.
  rewrite mergeW2_closed. unfold personalStrs.
  pose proof (writeName_outcome w2Data (strs R)) as Hn.
  destruct (isTruthyNumber (w2Data !! "employeeName")) eqn:En,
    (truthyStrO (strs R !! "firstName")) eqn:Ef; cbn [andb negb] in Hn;
    try (destruct Hn as [e ->]; cbn; split; [intros _; left; done | eauto]).
  all: destruct Hn as [s1 H1]; rewrite H1; cbn [mbind Outcome_bind].
  all: assert (s1 !! "ssn" = strs R !! "ssn") as Es
      by (by apply (writeName_other _ _ _ _ H1)).
  all: assert (s1 !! "address" = strs R !! "address") as Ea
      by (by apply (writeName_other _ _ _ _ H1)).
  all: pose proof (writeSSN_outcome w2Data s1) as Hs; rewrite Es in Hs.
  all: destruct (isTruthyNumber (w2Data !! "employeeSSN")) eqn:Ens,
    (truthyStrO (strs R !! "ssn")) eqn:Efs; cbn [andb negb] in Hs;
    try (destruct Hs as [e ->]; cbn; split; [intros _; right; left; done | eauto]).
  all: destruct Hs as [s2 H2]; rewrite H2; cbn [mbind Outcome_bind].
  all: assert (s2 !! "address" = strs R !! "address") as Ea2
      by (rewrite <- Ea; by apply (writeSSN_other _ _ _ _ H2)).
  all: pose proof (writeAddress_outcome w2Data s2) as Had; rewrite Ea2 in Had.
  all: destruct (isTruthyNumber (w2Data !! "employeeAddress")) eqn:Ena,
    (truthyStrO (strs R !! "address")) eqn:Efa; cbn [andb negb] in Had;
    try (destruct Had as [e ->]; cbn; split; [intros _; right; right; done | eauto]).
  all: destruct Had as [s3 ->]; cbn; split;
    [ intros [e ?]; discriminate
    | intros [[? ?]|[[? ?]|[? ?]]]; discriminate ].
Qed.

Lemma merge_throws_exactly_on_numeric_identity_witness :
  exists e, mergeW2 numericIdentifier emptyForm = Throws e.
Proof.
  apply (proj2 (merge_throws_exactly_on_numeric_identity numericIdentifier emptyForm)).
  right; left. split; vm_compute; reflexivity.
Defined.

(** *** What a call reads and what it writes *)

Lemma calculateTotalIncome_agree m m' :
  (forall j, j ∈ inputKeys -> m !! j = m' !! j) ->
  calculateTotalIncome (mkForm1040Data ∅ m) = calculateTotalIncome (mkForm1040Data ∅ m').
Proof.
  intros H. unfold calculateTotalIncome. cbn [nums].
  rewrite !(H _) by in_keys. done.
Qed.

Lemma line12Of_agree fs m m' :
  (forall j, j ∈ inputKeys -> m !! j = m' !! j) -> line12Of fs m = line12Of fs m'.
Proof.
  intros H. unfold line12Of, standardDeductionApplies.
  rewrite !(H "line12") by in_keys. done.
Qed.

Lemma line15Of_agree fs m m' :
  (forall j, j ∈ inputKeys -> m !! j = m' !! j) -> line15Of fs m = line15Of fs m'.
Proof.
  intros H. unfold line15Of.
  rewrite (calculateTotalIncome_agree _ _ H), (line12Of_agree fs _ _ H).
  rewrite !(H "line13") by in_keys. done.
Qed.

Lemma line24Of_agree fs m m' :
  (forall j, j ∈ inputKeys -> m !! j = m' !! j) -> line24Of fs m = line24Of fs m'.
Proof.
  intros H. unfold line24Of. rewrite (line15Of_agree fs _ _ H).
  rewrite !(H "line17"), !(H "line23") by in_keys. done.
Qed.

Lemma line32Of_agree m m' :
  (forall j, j ∈ inputKeys -> m !! j = m' !! j) -> line32Of m = line32Of m'.
Proof.
  intros H. unfold line32Of.
  rewrite !(H "line25a"), !(H "line25b"), !(H "line25c"), !(H "line25d")
    by in_keys. done.
Qed.

Lemma derivedNums_agree fs m m' j :
  (forall i, i ∈ inputKeys -> m !! i = m' !! i) ->
  j ∈ derivedKeys -> derivedNums fs m !! j = derivedNums fs m' !! j.
Proof.
  intros H Hin.
  destruct (derivedNums_settled fs m) as (H33 & H34 & H37).
  destruct (derivedNums_settled fs m') as (H33' & H34' & H37').
  cbv zeta in *.
  rewrite (line24Of_agree fs _ _ H), (line32Of_agree _ _ H) in H33, H34, H37.
  unfold derivedKeys in Hin. rewrite !elem_of_cons in Hin.
  destruct Hin as [->|[->|[->|[->|[->|[->|[->|[->|[->|[->|Hin]]]]]]]]]].
  - by rewrite !derivedNums_line9, (calculateTotalIncome_agree _ _ H).
  - by rewrite !derivedNums_line11, (calculateTotalIncome_agree _ _ H).
  - by rewrite !derivedNums_line12, (line12Of_agree fs _ _ H).
  - by rewrite !derivedNums_line15, (line15Of_agree fs _ _ H).
  - by rewrite !derivedNums_line16, (line15Of_agree fs _ _ H).
  - by rewrite !derivedNums_line24, (line24Of_agree fs _ _ H).
  - by rewrite !derivedNums_line32, (line32Of_agree _ _ H).
  - congruence.
  - congruence.
  - congruence.
  - by apply elem_of_nil in Hin.
Qed.

Lemma incomeNums_insert w2Data n k v :
  k ≠ "line1" -> k ≠ "line25a" ->
  incomeNums w2Data (<[k := v]> n) = <[k := v]> (incomeNums w2Data n).
Proof.
  intros H1 H2. unfold incomeNums. cbv zeta.
  destruct (gt (parseAmount (w2Data !! "wages")) 0);
    destruct (gt (parseAmount (w2Data !! "federalTaxWithheld")) 0); map_look;
    try reflexivity.
  - rewrite (insert_insert_ne _ "line1" k) by done.
    by rewrite (insert_insert_ne _ "line25a" k) by done.
  - by rewrite (insert_insert_ne _ "line1" k) by done.
  - by rewrite (insert_insert_ne _ "line25a" k) by done.
Qed.

(** X2. The derived lines (9, 11, 15, 16, 24, 32, 33, 34, 37) of the
    existing record are never read: whatever value the record holds for
    one of them, the call gives the same outcome. *)
Theorem stale_derived_lines_ignored w2Data R k v :
  k ∈ recomputedKeys ->
  mergeW2 w2Data (writeNum k v R) = mergeW2 w2Data R.
Proof.
  intros Hk. rewrite !mergeW2_closed. cbn [strs nums writeNum].
  assert (k ∈ derivedKeys) as Hd.
  { unfold recomputedKeys in Hk. rewrite !elem_of_cons in Hk.
    destruct Hk as [->|[->|[->|[->|[->|[->|[->|[->|[->|Hk]]]]]]]]]; try in_keys.
    by apply elem_of_nil in Hk. }
  assert (k ∉ inputKeys) as Hi.
  { unfold recomputedKeys in Hk. rewrite !elem_of_cons in Hk.
    destruct Hk as [->|[->|[->|[->|[->|[->|[->|[->|[->|Hk]]]]]]]]];
      try (unfold inputKeys; not_in_keys). by apply elem_of_nil in Hk. }
  rewrite incomeNums_insert.
  2,3: intros ->; apply Hi; in_keys.
  destruct (personalStrs w2Data (strs R)) as [s|e]; cbn [mbind Outcome_bind]; [|done].
  do 2 f_equal. apply map_eq. intros j.
  destruct (decide (j ∈ derivedKeys)) as [Hj|Hj].
  - apply derivedNums_agree; [|done]. intros i Hin.
    rewrite lookup_insert_ne; [done|]. intros ->. done.
  - rewrite !derivedNums_other by done. rewrite lookup_insert_ne; [done|].
    intros ->. done.
Qed.

Lemma stale_derived_lines_ignored_witness :
  mergeW2 exampleW2 (writeNum "line16" 1 exampleExisting) = mergeW2 exampleW2 exampleExisting.
Proof.
  apply (stale_derived_lines_ignored exampleW2 exampleExisting "line16" 1). in_keys.
Defined.

Lemma writeName_keeps w2Data s s' k :
  writeName w2Data s = Returns s' -> is_Some (s !! k) -> is_Some (s' !! k).
Proof.
  unfold writeName. destruct (_ && _); [|by intros [= <-]].
  destruct (asString _ _); cbn; [|discriminate]. intros [= <-] H.
  rewrite !lookup_insert. repeat case_decide; eauto.
Qed.

Lemma writeSSN_keeps w2Data s s' k :
  writeSSN w2Data s = Returns s' -> is_Some (s !! k) -> is_Some (s' !! k).
Proof.
  unfold writeSSN. destruct (_ && _); [|by intros [= <-]].
  destruct (formatSSN _); cbn; [|discriminate]. intros [= <-] H.
  rewrite !lookup_insert. repeat case_decide; eauto.
Qed.

Lemma writeAddress_keeps w2Data s s' k :
  writeAddress w2Data s = Returns s' -> is_Some (s !! k) -> is_Some (s' !! k).
Proof.
  unfold writeAddress. destruct (_ && _); [|by intros [= <-]].
  destruct (parseAddress _); cbn; [|discriminate]. intros [= <-] H.
  rewrite !lookup_insert. repeat case_decide; eauto.
Qed.

Lemma incomeNums_keeps w2Data n k :
  is_Some (n !! k) -> is_Some (incomeNums w2Data n !! k).
Proof.
  intros H. unfold incomeNums. cbv zeta.
  destruct (gt (parseAmount (w2Data !! "wages")) 0);
    destruct (gt (parseAmount (w2Data !! "federalTaxWithheld")) 0);
    rewrite ?lookup_insert; repeat case_decide; eauto.
Qed.

Lemma derivedNums_keeps fs n k :
  is_Some (n !! k) -> is_Some (derivedNums fs n !! k).
Proof.
  intros H. unfold derivedNums, settle. cbv zeta.
  destruct (gt _ _), (standardDeductionApplies fs n);
    rewrite ?lookup_insert; repeat case_decide; eauto.
Qed.

Lemma mergeW2_keeps_strs w2Data R M k :
  mergeW2 w2Data R = Returns M -> is_Some (strs R !! k) -> is_Some (strs M !! k).
Proof.
  intros HM%mergeW2_strs H.
  destruct (personalStrs_inv _ _ _ HM) as (s1 & s2 & H1 & H2 & H3).
  eauto using writeName_keeps, writeSSN_keeps, writeAddress_keeps.
Qed.

Lemma mergeW2_keeps_nums w2Data R M k :
  mergeW2 w2Data R = Returns M -> is_Some (nums R !! k) -> is_Some (nums M !! k).
Proof.
  intros HM H. rewrite (mergeW2_nums _ _ _ HM).
  by apply derivedNums_keeps, incomeNums_keeps.
Qed.

(** X3. A call that returns changes no string property other than the
    seven identity fields, changes no numeric property other than lines 1
    and 25a and the derived lines, and removes no property of the existing
    record. *)
Theorem merge_touches_only_its_lines w2Data R M :
  mergeW2 w2Data R = Returns M ->
  (forall k, k ∉ identityKeys -> strs M !! k = strs R !! k) /\
  (forall k, k ∉ derivedKeys -> k ≠ "line1" -> k ≠ "line25a" ->
     nums M !! k = nums R !! k) /\
  (forall k, is_Some (strs R !! k) -> is_Some (strs M !! k)) /\
  (forall k, is_Some (nums R !! k) -> is_Some (nums M !! k)).
Proof.
  intros HM. split; [|split; [|split]].
  - intros k Hk. apply (personalStrs_other w2Data (strs R)); [by apply mergeW2_strs | done].
  - intros k ???. by apply (merged_input w2Data).
  - intros k. by apply (mergeW2_keeps_strs w2Data).
  - intros k. by apply (mergeW2_keeps_nums w2Data).
Qed.

Lemma merge_touches_only_its_lines_witness :
  let M := returned (mergeW2 exampleW2 exampleExisting) in
  strs M !! "filingStatus" = strs exampleExisting !! "filingStatus".
Proof.
  intros M.
  destruct (merge_touches_only_its_lines exampleW2 exampleExisting M) as (Hstrs & _);
    [vm_compute; reflexivity|].
  apply Hstrs. unfold identityKeys. not_in_keys.
Defined.

(** X4. Whenever the call returns, each of the lines 9, 11, 15, 16, 24,
    32, 33, 34 and 37 is present in the returned record, whatever the
    document and the existing record hold. *)
Theorem derived_lines_always_present w2Data R M k :
  mergeW2 w2Data R = Returns M -> k ∈ recomputedKeys -> is_Some (nums M !! k).
Proof.
  intros HM Hk. rewrite (mergeW2_nums _ _ _ HM).
  set (fs := strs M !! "filingStatus"). set (n := incomeNums w2Data (nums R)).
  destruct (derivedNums_settled fs n) as (H33 & H34 & H37). cbv zeta in *.
  unfold recomputedKeys in Hk. rewrite !elem_of_cons in Hk.
  destruct Hk as [->|[->|[->|[->|[->|[->|[->|[->|[->|Hk]]]]]]]]].
  - rewrite derivedNums_line9. eauto.
  - rewrite derivedNums_line11. eauto.
  - rewrite derivedNums_line15. eauto.
  - rewrite derivedNums_line16. eauto.
  - rewrite derivedNums_line24. eauto.
  - rewrite derivedNums_line32. eauto.
  - rewrite H33. eauto.
  - rewrite H34. eauto.
  - rewrite H37. eauto.
  - by apply elem_of_nil in Hk.
Qed.

Lemma derived_lines_always_present_witness :
  let M := returned (mergeW2 docA priorRecord) in
  is_Some (nums M !! "line37").
Proof.
  intros M.
  apply (derived_lines_always_present docA priorRecord M "line37");
    [vm_compute; reflexivity | in_keys].
Defined.

(** *** Income lines *)

Lemma Prim2SF_nan : Prim2SF NaN = S754_nan.
Proof. reflexivity. Qed.

Lemma ltb_zero_asym x : PrimFloat.ltb 0 x = true -> PrimFloat.ltb x 0 = false.
Proof.
  rewrite !ltb_spec, Prim2SF_zero.
  destruct (Prim2SF x) as [s|s| |s m e]; try discriminate; by destruct s.
Qed.

Lemma Math_max_zero_not_negative x : PrimFloat.ltb (Math_max 0 x) 0 = false.
Proof.
  unfold Math_max.
  destruct (isNaN 0 || isNaN x); [reflexivity|].
  destruct (PrimFloat.ltb 0 x) eqn:H; [by apply ltb_zero_asym|].
  destruct (PrimFloat.ltb x 0); reflexivity.
Qed.

Lemma truthyNum_not_zero x :
  truthyNum x = true -> forall s, Prim2SF x <> S754_zero s.
Proof.
  unfold truthyNum. rewrite FloatAxioms.eqb_spec, Prim2SF_zero.
  intros H s E. rewrite E in H. by destruct s.
Qed.

Lemma orZero_add_zero v : (orZero v + 0)%float = orZero v.
Proof.
  unfold orZero. destruct v as [x|]; [|reflexivity].
  destruct (truthyNum x) eqn:Ht; [|reflexivity].
  apply Prim2SF_inj. rewrite add_spec, Prim2SF_zero. unfold SF64add, SFadd.
  pose proof (truthyNum_not_zero x Ht) as Hz.
  destruct (Prim2SF x) as [s|s| |s m e]; try reflexivity. by destruct (Hz s).
Qed.

(** X5. Whenever the call returns, line 15 (taxable income) is present
    and is not below zero: [Math.max(0, ...)] clamps it. *)
Theorem taxable_income_never_negative w2Data R M :
  mergeW2 w2Data R = Returns M ->
  exists line15, nums M !! "line15" = Some line15 /\ PrimFloat.ltb line15 0 = false.
Proof.
  intros HM. rewrite (mergeW2_nums _ _ _ HM), derivedNums_line15.
  eexists. split; [reflexivity|]. apply Math_max_zero_not_negative.
Qed.

Lemma taxable_income_never_negative_witness :
  let M := returned (mergeW2 exampleW2 exampleExisting) in
  exists line15, nums M !! "line15" = Some line15 /\ PrimFloat.ltb line15 0 = false.
Proof.
  intros M.
  apply (taxable_income_never_negative exampleW2 exampleExisting M).
  vm_compute; reflexivity.
Defined.

(** X6. In a returned record line 11 (adjusted gross income) equals line
    9 (total income); and when the existing record has no other income
    (lines 2b to 8 absent, zero or [NaN]), line 9 is the wages of line 1,
    or [0] when line 1 is absent, zero or [NaN]. *)
Theorem wages_only_total_income w2Data R M :
  mergeW2 w2Data R = Returns M ->
  nums M !! "line11" = nums M !! "line9" /\
  ((forall k, k ∈ otherIncomeKeys -> truthyNumO (nums R !! k) = false) ->
   nums M !! "line9" = Some (orZero (nums M !! "line1"))).
Proof.
  intros HM. split.
  - by rewrite (mergeW2_nums _ _ _ HM), derivedNums_line11, derivedNums_line9.
  - intros Hno. rewrite (merged_line9 _ _ _ HM), (merged_line1 _ _ _ HM).
    rewrite !(orZero_falsy (nums R !! _)) by (apply Hno; in_keys).
    f_equal.
    set (w := accumulate _ _). 
    by rewrite !orZero_add_zero.
Qed.

Lemma wages_only_total_income_witness :
  let M := returned (mergeW2 exampleW2 exampleExisting) in
  nums M !! "line9" = Some (orZero (nums M !! "line1")).
Proof.
  intros M.
  destruct (wages_only_total_income exampleW2 exampleExisting M) as (_ & Hwages);
    [vm_compute; reflexivity|].
  apply Hwages. intros k _.
  change (nums exampleExisting) with (∅ : gmap string float).
  by rewrite lookup_empty.
Defined.

(** *** Tax computation *)

Lemma gt_zero_not_leb x : gt x 0 = true -> PrimFloat.leb x 0 = false.
Proof.
  intros H. rewrite leb_spec, Prim2SF_zero.
  by destruct (gt_zero_shape x H) as [-> | (m & e & ->)].
Qed.

Lemma gt_zero_not_nan x : gt x 0 = true -> isNaN x = false.
Proof.
  intros H%gt_zero_truthy. unfold truthyNum in H.
  apply andb_prop in H as [_ H]. by destruct (isNaN x).
Qed.

Lemma leb_not_nan_r x w : PrimFloat.leb x w = true -> isNaN w = false.
Proof.
  unfold isNaN. rewrite leb_spec, FloatAxioms.eqb_spec.
  destruct (Prim2SF w) as [s|s| |s m e].
  - intros _. by destruct s.
  - intros _. by destruct s.
  - by destruct (Prim2SF x) as [?|?| |? ? ?].
  - intros _. unfold SFeqb. by rewrite SFcompare_refl_finite.
Qed.

Lemma leb_not_ltb_eq x w :
  gt x 0 = true -> PrimFloat.leb x w = true -> PrimFloat.ltb x w = false -> x = w.
Proof.
  intros Hx. rewrite leb_spec, ltb_spec. intros Hle Hlt. apply Prim2SF_inj.
  destruct (gt_zero_shape x Hx) as [E | (m & e & E)]; rewrite E in *.
  - destruct (Prim2SF w) as [s|s| |s m' e']; try discriminate.
    by destruct s.
  - destruct (Prim2SF w) as [s|s| |s m' e']; try discriminate.
    + by destruct s.
    + unfold SFleb, SFltb in *. cbn in *. destruct s; [discriminate|].
      destruct (Z.compare e e') eqn:Ez; try discriminate.
      apply Z.compare_eq in Ez. subst e'.
      destruct (Pos.compare_cont Eq m m') eqn:Em; try discriminate.
      apply Pos.compare_eq in Em. by subst m'.
Qed.

Lemma Math_min_le x w :
  gt x 0 = true -> PrimFloat.leb x w = true -> Math_min x w = x.
Proof.
  intros Hx Hle. unfold Math_min.
  rewrite (gt_zero_not_nan x Hx), (leb_not_nan_r x w Hle). cbn [orb].
  destruct (PrimFloat.ltb x w) eqn:Hlt; [reflexivity|].
  pose proof (leb_not_ltb_eq x w Hx Hle Hlt) as E. rewrite <- E in *.
  rewrite Hlt. by destruct (isNegZero x).
Qed.

Lemma sub_self x s m e : Prim2SF x = S754_finite s m e -> (x - x)%float = 0%float.
Proof.
  intros E. apply Prim2SF_inj. rewrite sub_spec, E, Prim2SF_zero.
  unfold SF64sub, SFsub. cbv zeta.
  match goal with |- binary_normalize _ _ (?f ?A ?B) _ _ = _ =>
    change B with A; assert (f A A = 0%Z) as -> by apply Z.sub_diag end.
  reflexivity.
Qed.

Lemma within_finite x w s m e :
  gt x 0 = true -> PrimFloat.leb x w = true -> Prim2SF w = S754_finite s m e ->
  exists m' e', Prim2SF x = S754_finite false m' e'.
Proof.
  intros Hx Hle Ew. rewrite leb_spec, Ew in Hle.
  destruct (gt_zero_shape x Hx) as [E | (m' & e' & E)]; [|eauto].
  rewrite E in Hle. discriminate.
Qed.

(** X7. [calculateTaxLiability] is [0] for a taxable income of zero or
    below, for every filing status. *)
Theorem no_tax_on_nonpositive_income taxableIncome filingStatus :
  PrimFloat.leb taxableIncome 0 = true ->
  calculateTaxLiability taxableIncome filingStatus = 0%float.
Proof.
  intros H. unfold calculateTaxLiability.
  destruct filingStatus as [fs|]; [destruct (String.eqb fs _)|];
    cbn [bracketLoop bracketsSingle bracketsMarriedFilingJointly]; rewrite H; reflexivity.
Qed.

Lemma no_tax_on_nonpositive_income_witness :
  calculateTaxLiability (-100)%float (Some "SINGLE") = 0%float.
Proof.
  apply (no_tax_on_nonpositive_income (-100)%float (Some "SINGLE")).
  vm_compute; reflexivity.
Defined.

(** X8. A positive taxable income that does not exceed the first bracket
    (22000 for married filing jointly, 11000 otherwise) is taxed at 10 per
    cent, rounded to cents. *)
Theorem first_bracket_only taxableIncome filingStatus :
  gt taxableIncome 0 = true ->
  PrimFloat.leb taxableIncome (firstBracketWidth filingStatus) = true ->
  calculateTaxLiability taxableIncome filingStatus =
  (Math_round ((0 + taxableIncome * 0.10) * 100) / 100)%float.
Proof.
  intros Hx Hle. unfold calculateTaxLiability.
  assert (exists m e, Prim2SF taxableIncome = S754_finite false m e) as (m & e & Efin).
  { unfold firstBracketWidth in Hle.
    destruct filingStatus as [fs|]; [destruct (String.eqb fs _)|];
      eapply (within_finite _ _ _ _ _ Hx Hle); reflexivity. }
  unfold firstBracketWidth in Hle.
  destruct filingStatus as [fs|]; [destruct (String.eqb fs _)|];
    cbn [bracketLoop bracketsSingle bracketsMarriedFilingJointly bmax bmin rate];
    rewrite (gt_zero_not_leb _ Hx).
  - change (22000 - 0)%float with 22000%float.
    rewrite (Math_min_le _ _ Hx Hle), (sub_self _ _ _ _ Efin). reflexivity.
  - change (11000 - 0)%float with 11000%float.
    rewrite (Math_min_le _ _ Hx Hle), (sub_self _ _ _ _ Efin). reflexivity.
  - change (11000 - 0)%float with 11000%float.
    rewrite (Math_min_le _ _ Hx Hle), (sub_self _ _ _ _ Efin). reflexivity.
Qed.

Lemma first_bracket_only_witness :
  calculateTaxLiability 5000 (Some "SINGLE") =
  (Math_round ((0 + 5000 * 0.10) * 100) / 100)%float.
Proof.
  apply (first_bracket_only 5000%float (Some "SINGLE")); vm_compute; reflexivity.
Defined.

(** X9. Every filing status other than ['MARRIED_FILING_JOINTLY'],
    and a missing one, is taxed by the brackets of a single filer. *)
Theorem only_joint_filers_have_own_brackets taxableIncome filingStatus :
  filingStatus <> Some "MARRIED_FILING_JOINTLY" ->
  calculateTaxLiability taxableIncome filingStatus =
  calculateTaxLiability taxableIncome (Some "SINGLE").
Proof.
  intros H. unfold calculateTaxLiability.
  destruct filingStatus as [fs|]; [|reflexivity].
  destruct (String.eqb_spec fs "MARRIED_FILING_JOINTLY") as [E|Hne].
  - subst fs. by destruct H.
  - change (String.eqb "SINGLE" "MARRIED_FILING_JOINTLY") with false. reflexivity.
Qed.

Lemma only_joint_filers_have_own_brackets_witness :
  calculateTaxLiability 60000 (Some "HEAD_OF_HOUSEHOLD") =
  calculateTaxLiability 60000 (Some "SINGLE").
Proof.
  apply (only_joint_filers_have_own_brackets 60000%float (Some "HEAD_OF_HOUSEHOLD")).
  discriminate.
Defined.

(** X10. For a filing status that is not the name of a member of
    [Object.prototype], [getStandardDeduction] gives 13850 when the table
    does not list the status, and always one of 13850, 20800 and 27700. *)
Theorem standard_deduction_values filingStatus :
  filingStatus ∉ objectPrototypeNames ->
  (filingStatus ∉ map fst STANDARD_DEDUCTION_2023 ->
   getStandardDeduction filingStatus = 13850%float) /\
  (getStandardDeduction filingStatus = 13850%float \/
   getStandardDeduction filingStatus = 20800%float \/
   getStandardDeduction filingStatus = 27700%float).
Proof.
  intros _.
  unfold getStandardDeduction, STANDARD_DEDUCTION_2023. cbn [tableLookup map fst].
  split.
  - intros Hk. rewrite !not_elem_of_cons in Hk. destruct Hk as (H1&H2&H3&H4&H5&_).
    repeat match goal with
           | |- context [String.eqb ?a filingStatus] =>
               destruct (String.eqb_spec a filingStatus); [congruence|]
           end.
    reflexivity.
  - repeat match goal with
           | |- context [String.eqb ?a filingStatus] => destruct (String.eqb a filingStatus)
           end; cbn; auto.
Qed.

Lemma standard_deduction_values_witness :
  getStandardDeduction "WIDOWED" = 13850%float.
Proof.
  apply (proj1 (standard_deduction_values "WIDOWED"
                  ltac:(unfold objectPrototypeNames; not_in_keys))).
  cbn [map fst STANDARD_DEDUCTION_2023]. not_in_keys.
Defined.

(** *** The private helpers on strings *)

Lemma filterStr_app p s t :
  filterStr p (s ++ t)%string = (filterStr p s ++ filterStr p t)%string.
Proof.
  induction s as [|c s IH]; [reflexivity|]. simpl.
  destruct (p c); simpl; by rewrite IH.
Qed.

Lemma filterStr_all p s : allStr p (filterStr p s) = true.
Proof.
  induction s as [|c s IH]; [reflexivity|]. cbn. destruct (p c) eqn:Hc; [|done].
  cbn. by rewrite Hc.
Qed.

Lemma filterStr_id p s : allStr p s = true -> filterStr p s = s.
Proof.
  induction s as [|c s IH]; [reflexivity|]. cbn. intros [Hc Hs]%andb_prop.
  by rewrite Hc, IH.
Qed.

Lemma formatSSN_string s :
  formatSSN (Some (VStr s)) =
  Returns (let cleaned := filterStr is_digit s in
           if (String.length cleaned =? 9)%nat then
             (substring 0 3 cleaned ++ "-" ++ substring 3 2 cleaned ++ "-"
                ++ substring 5 4 cleaned)%string
           else cleaned).
Proof.
  unfold formatSSN. cbn [truthy asString]. destruct s as [|c s]; [reflexivity|].
  cbn [truthyStr negb mbind Outcome_bind]. by destruct (_ =? 9)%nat.
Qed.

Lemma nine_chars (d : string) :
  String.length d = 9%nat ->
  exists c1 c2 c3 c4 c5 c6 c7 c8 c9,
    d = String c1 (String c2 (String c3 (String c4 (String c5 (String c6
          (String c7 (String c8 (String c9 EmptyString)))))))).
Proof.
  intros H.
  do 9 (destruct d as [|? d]; [discriminate|]).
  destruct d; [|discriminate]. by repeat eexists.
Qed.

Lemma filterStr_dashed (p : ascii -> bool) c1 c2 c3 c4 c5 c6 c7 c8 c9 :
  let d := String c1 (String c2 (String c3 (String c4 (String c5 (String c6
             (String c7 (String c8 (String c9 EmptyString)))))))) in
  allStr p d = true -> p "-"%char = false ->
  filterStr p (substring 0 3 d ++ "-" ++ substring 3 2 d ++ "-" ++ substring 5 4 d)%string = d.
Proof.
  cbv zeta. intros Hall Hdash. simpl in Hall.
  repeat (apply andb_prop in Hall as [? Hall]).
  simpl. rewrite Hdash.
  repeat match goal with H : p _ = true |- _ => rewrite H; clear H end.
  reflexivity.
Qed.

(** X11. On a string [formatSSN] returns a string with the same digits
    in the same order, and formatting its result again changes nothing. *)
Theorem formatSSN_keeps_digits_and_is_idempotent s :
  exists r,
    formatSSN (Some (VStr s)) = Returns r /\
    filterStr is_digit r = filterStr is_digit s /\
    formatSSN (Some (VStr r)) = Returns r.
Proof.
  rewrite formatSSN_string. cbv zeta.
  pose proof (filterStr_all is_digit s) as Hall.
  set (d := filterStr is_digit s) in *.
  destruct (String.length d =? 9)%nat eqn:Hlen.
  - apply Nat.eqb_eq in Hlen.
    destruct (nine_chars d Hlen) as (c1&c2&c3&c4&c5&c6&c7&c8&c9&E).
    pose proof (filterStr_dashed is_digit c1 c2 c3 c4 c5 c6 c7 c8 c9) as Hd.
    cbv zeta in Hd. rewrite <- E in Hd. specialize (Hd Hall eq_refl).
    eexists. split; [reflexivity|]. split; [exact Hd|].
    rewrite formatSSN_string. cbv zeta. rewrite Hd.
    apply Nat.eqb_eq in Hlen. by rewrite Hlen.
  - exists d. split; [reflexivity|].
    rewrite (filterStr_id _ d Hall). split; [reflexivity|].
    rewrite formatSSN_string. cbv zeta. rewrite (filterStr_id _ d Hall), Hlen. reflexivity.
Qed.

(** X12. When the string holds exactly nine digits, [formatSSN] returns
    eleven characters with a dash at positions 3 and 6. *)
Theorem formatSSN_nine_digits s :
  String.length (filterStr is_digit s) = 9%nat ->
  exists r,
    formatSSN (Some (VStr s)) = Returns r /\
    String.length r = 11%nat /\
    String.get 3 r = Some "-"%char /\ String.get 6 r = Some "-"%char.
Proof.
  intros Hlen. rewrite formatSSN_string. cbv zeta. rewrite Hlen. cbn [Nat.eqb].
  destruct (nine_chars _ Hlen) as (c1&c2&c3&c4&c5&c6&c7&c8&c9&->).
  eexists. split; [reflexivity|]. repeat split.
Qed.

Lemma formatSSN_nine_digits_witness :
  exists r,
    formatSSN (Some (VStr "123 45 6789")) = Returns r /\
    String.length r = 11%nat /\
    String.get 3 r = Some "-"%char /\ String.get 6 r = Some "-"%char.
Proof.
  apply (formatSSN_nine_digits "123 45 6789"). vm_compute; reflexivity.
Defined.

(** X13. [parseAmount] gives the same number with and without a [$],
    a comma or a white space character anywhere in the string. *)
Theorem parseAmount_ignores_separators s1 c s2 :
  isSeparator c = true ->
  parseAmount (Some (VStr (s1 ++ String c s2)%string)) =
  parseAmount (Some (VStr (s1 ++ s2)%string)).
Proof.
  intros Hc. unfold parseAmount. rewrite !filterStr_app. cbn [filterStr].
  unfold isSeparator in Hc. rewrite Hc. reflexivity.
Qed.

Lemma parseAmount_ignores_separators_witness :
  parseAmount (Some (VStr ("50" ++ String "," "000.00")%string)) =
  parseAmount (Some (VStr ("50" ++ "000.00")%string)).
Proof.
  apply (parseAmount_ignores_separators "50" "," "000.00"). vm_compute; reflexivity.
Defined.

Lemma splitChar_length sep s : length (splitChar sep s) = S (countChar sep s).
Proof.
  induction s as [|c s IH]; [reflexivity|]. cbn.
  destruct (Ascii.eqb c sep); cbn; [by rewrite IH|].
  destruct (splitChar sep s); cbn in *; [discriminate|done].
Qed.

(** X14. An address with fewer than two commas is returned whole as the
    street, with city, state and zip code empty. *)
Theorem parseAddress_few_commas address :
  (countChar "," address < 2)%nat ->
  parseAddress (Some (VStr address)) = Returns (mkAddressParts address "" "" "").
Proof.
  intros H. unfold parseAddress. cbn [asString mbind Outcome_bind].
  rewrite length_map, splitChar_length.
  destruct (3 <=? S (countChar "," address))%nat eqn:E; [|reflexivity].
  apply Nat.leb_le in E. lia.
Qed.

Lemma parseAddress_few_commas_witness :
  parseAddress (Some (VStr "123 Main St, Springfield")) =
  Returns (mkAddressParts "123 Main St, Springfield" "" "" "").
Proof.
  apply (parseAddress_few_commas "123 Main St, Springfield"). vm_compute. lia.
Defined.

(** *** Addresses and names *)

Lemma isZip_shape z :
  isZip z = true ->
  (String.length z = 5%nat \/ String.length z = 10%nat) /\ allStr isZipChar z = true.
Proof.
  unfold isZip, isZipChar.
  do 5 (destruct z as [|? z]; [simpl; discriminate|]).
  destruct z as [|? z].
  { simpl. intros H. split_ands. split; [by left|].
    repeat match goal with H : is_digit _ = true |- _ => rewrite H; clear H end.
    reflexivity. }
  do 4 (destruct z as [|? z]; [simpl; intros H; split_ands; discriminate|]).
  destruct z as [|? z].
  { simpl. intros H. split_ands. split; [by right|].
    repeat match goal with H : is_digit _ = true |- _ => rewrite H; clear H end.
    repeat match goal with H : Ascii.eqb _ _ = true |- _ => rewrite H; clear H end.
    by rewrite orb_true_r. }
  simpl. intros H. split_ands. discriminate.
Qed.

Lemma matchStateZip_shape stateZip st z :
  matchStateZip stateZip = Some (st, z) ->
  String.length st = 2%nat /\ allStr is_upper st = true /\
  (String.length z = 5%nat \/ String.length z = 10%nat) /\ allStr isZipChar z = true.
Proof.
  unfold matchStateZip. destruct stateZip as [|a [|b rest]]; try discriminate.
  destruct (is_upper a && is_upper b && isZip (trimStart rest)) eqn:H; [|discriminate].
  intros [= <- <-]. apply andb_prop in H as [[Ha Hb]%andb_prop Hz].
  split; [reflexivity|]. split; [simpl; by rewrite Ha, Hb|]. by apply isZip_shape.
Qed.

(** X15. In the result of [parseAddress] state and zip code are either
    both empty, or the state is two capital letters and the zip code is
    five or ten characters, each a digit or a dash. *)
Theorem parseAddress_state_and_zip address r :
  parseAddress (Some (VStr address)) = Returns r ->
  (state r = "" /\ zipCode r = "") \/
  (String.length (state r) = 2%nat /\ allStr is_upper (state r) = true /\
   (String.length (zipCode r) = 5%nat \/ String.length (zipCode r) = 10%nat) /\
   allStr isZipChar (zipCode r) = true).
Proof.
  unfold parseAddress. cbn [asString mbind Outcome_bind].
  destruct (3 <=? _)%nat; [|intros [= <-]; by left].
  destruct (matchStateZip _) as [[st z]|] eqn:Hm; intros [= <-]; cbn [state zipCode].
  - right. by apply (matchStateZip_shape _ _ _ Hm).
  - by left.
Qed.

Lemma parseAddress_state_and_zip_witness :
  let r := mkAddressParts "9 Elm St" "Boston" "MA" "02101" in
  (state r = "" /\ zipCode r = "") \/
  (String.length (state r) = 2%nat /\ allStr is_upper (state r) = true /\
   (String.length (zipCode r) = 5%nat \/ String.length (zipCode r) = 10%nat) /\
   allStr isZipChar (zipCode r) = true).
Proof.
  intros r.
  apply (parseAddress_state_and_zip "9 Elm St, Boston, MA 02101" r).
  vm_compute; reflexivity.
Defined.

Lemma consHead_ok c ts :
  is_ws c = false -> Forall tokenOk ts -> Forall tokenOk (consHead c ts).
Proof.
  intros Hc H. destruct H as [|t ts [Ht1 Ht2] Hts]; constructor; try done.
  - split; [done|]. unfold noWhiteSpace. simpl. by rewrite Hc.
  - split; [done|]. unfold noWhiteSpace in *. simpl. by rewrite Hc.
Qed.

Lemma tokens_ok s : Forall tokenOk (tokens s).
Proof.
  induction s as [|c s IH]; [constructor|]. cbn [tokens].
  destruct (is_ws c) eqn:Hc; [done|].
  assert (tokenOk (String c EmptyString)) as Hone
    by (split; [done|]; unfold noWhiteSpace; simpl; by rewrite Hc).
  destruct s as [|d s]; [constructor; [exact Hone|constructor]|].
  destruct (is_ws d); [by constructor | by apply consHead_ok].
Qed.

Lemma tokens_app_space t r :
  tokenOk t -> tokens (t ++ String " " r)%string = t :: tokens r.
Proof.
  intros [Hne Hws]. induction t as [|c t IH]; [done|].
  unfold noWhiteSpace in Hws. simpl in Hws. apply andb_prop in Hws as [Hc Ht].
  apply negb_true_iff in Hc.
  change ((String c t ++ String " " r)%string) with (String c (t ++ String " " r)%string).
  cbn [tokens]. rewrite Hc. destruct t as [|d t].
  - reflexivity.
  - change ((String d t ++ String " " r)%string) with (String d (t ++ String " " r)%string) in *.
    simpl in Ht. apply andb_prop in Ht as [Hd Ht']. apply negb_true_iff in Hd as Hd'.
    rewrite Hd'. rewrite IH; [reflexivity | discriminate |].
    unfold noWhiteSpace. simpl. by rewrite Hd, Ht'.
Qed.

Lemma tokens_single t : tokenOk t -> tokens t = [t].
Proof.
  intros [Hne Hws]. induction t as [|c t IH]; [done|].
  unfold noWhiteSpace in Hws. simpl in Hws. apply andb_prop in Hws as [Hc Ht].
  apply negb_true_iff in Hc. cbn [tokens]. rewrite Hc. destruct t as [|d t]; [reflexivity|].
  simpl in Ht. apply andb_prop in Ht as [Hd Ht']. apply negb_true_iff in Hd as Hd'.
  rewrite Hd'. rewrite IH; [reflexivity | discriminate |].
  unfold noWhiteSpace. simpl. by rewrite Hd, Ht'.
Qed.

Lemma tokens_join ts : Forall tokenOk ts -> tokens (join " " ts) = ts.
Proof.
  induction 1 as [|t ts Ht Hts IH]; [reflexivity|].
  destruct ts as [|t' ts]; [by apply tokens_single|].
  change (join " " (t :: t' :: ts)) with (t ++ String " " (join " " (t' :: ts)))%string.
  by rewrite tokens_app_space, IH.
Qed.

(** X16. The parts [mapW2ToForm1040] splits a name into contain no white
    space, and joining them with single spaces and splitting again gives
    the same parts. *)
Theorem name_parts_normal_form rawName :
  let nameParts := splitWs (trim rawName) in
  Forall (fun part => noWhiteSpace part = true) nameParts /\
  splitWs (trim (join " " nameParts)) = nameParts.
Proof.
  cbv zeta. rewrite (splitWs_trim rawName), splitWs_trim.
  pose proof (tokens_ok rawName) as Hok. unfold tokensOrBlank at 1 3 4.
  destruct (tokens rawName) as [|t ts] eqn:Ht.
  - split; [constructor; [reflexivity|constructor] | reflexivity].
  - split.
    + eapply Forall_impl; [exact Hok|]. by intros ? [_ ?].
    + unfold tokensOrBlank. by rewrite (tokens_join _ Hok).
Qed.

(** *** The extraction service and the handler loop *)

Lemma mapField_value fields w2Data mapping :
  mapField fields w2Data mapping =
  match fields !! mapping.1 with
  | Some value => <[mapping.2 := VNum (serviceParseAmount value)]> w2Data
  | None => w2Data
  end.
Proof.
  destruct mapping as [a m]. cbn. destruct (fields !! a) as [[n|s|]|]; reflexivity.
Qed.

Lemma foldl_mapField_other fields mappings (base : W2Data) k :
  k ∉ map snd mappings -> foldl (mapField fields) base mappings !! k = base !! k.
Proof.
  revert base. induction mappings as [|[a m] ms IH]; intros base Hk; [reflexivity|].
  cbn [map snd] in Hk. apply not_elem_of_cons in Hk as [Hne Hk].
  cbn [foldl]. rewrite IH by done. rewrite mapField_value. cbn.
  destruct (fields !! a); [|done]. by rewrite lookup_insert_ne.
Qed.

Lemma foldl_mapField_mapped fields mappings (base : W2Data) a m :
  NoDup (map snd mappings) -> (a, m) ∈ mappings ->
  foldl (mapField fields) base mappings !! m =
  match fields !! a with
  | Some value => Some (VNum (serviceParseAmount value))
  | None => base !! m
  end.
Proof.
  revert base. induction mappings as [|[a' m'] ms IH]; intros base Hnd Hin.
  - by apply elem_of_nil in Hin.
  - cbn [map snd] in Hnd. apply NoDup_cons in Hnd as [Hnot Hnd].
    apply elem_of_cons in Hin as [[= -> ->]|Hin]; cbn [foldl].
    + rewrite foldl_mapField_other by done. rewrite mapField_value. cbn.
      destruct (fields !! a'); [by rewrite lookup_insert_eq|done].
    + rewrite IH by done. destruct (fields !! a); [done|].
      rewrite mapField_value. cbn. destruct (fields !! a'); [|done].
      rewrite lookup_insert_ne; [done|]. intros ->. apply Hnot.
      apply list_elem_of_fmap. by exists (a, m).
Qed.

Lemma w2FieldMappings_NoDup : NoDup (map snd w2FieldMappings).
Proof. apply (bool_decide_unpack _). vm_compute. exact I. Qed.

(** X17. [processW2Fields] stores a number for every mapped field that
    has a value, text fields such as the employee name included; a mapped
    field without a value keeps what the base data holds, and so does every
    property the mapping does not name. *)
Theorem processW2Fields_stores_numbers fields baseData :
  (forall azureFieldName mappedFieldName,
     (azureFieldName, mappedFieldName) ∈ w2FieldMappings ->
     processW2Fields fields baseData !! mappedFieldName =
     match fields !! azureFieldName with
     | Some value => Some (VNum (serviceParseAmount value))
     | None => baseData !! mappedFieldName
     end) /\
  (forall k, k ∉ map snd w2FieldMappings ->
     processW2Fields fields baseData !! k = baseData !! k).
Proof.
  split.
  - intros a m Hin. by apply foldl_mapField_mapped; [apply w2FieldMappings_NoDup|].
  - intros k Hk. by apply foldl_mapField_other.
Qed.

Lemma processW2Fields_stores_numbers_witness :
  processW2Fields azureFields azureBase !! "employeeName" =
  match azureFields !! "Employee.Name" with
  | Some value => Some (VNum (serviceParseAmount value))
  | None => azureBase !! "employeeName"
  end.
Proof.
  apply (proj1 (processW2Fields_stores_numbers azureFields azureBase)
           "Employee.Name" "employeeName").
  in_keys.
Defined.

Lemma processed_not_text fields baseData a m :
  (a, m) ∈ w2FieldMappings -> baseData !! m = None ->
  isText (processW2Fields fields baseData !! m) = false.
Proof.
  intros Hin Hb. unfold processW2Fields.
  rewrite (foldl_mapField_mapped fields _ baseData a m w2FieldMappings_NoDup Hin).
  destruct (fields !! a); [done|]. by rewrite Hb.
Qed.

Lemma writeName_needs_text w2Data s s1 :
  isText (w2Data !! "employeeName") = false -> writeName w2Data s = Returns s1 -> s1 = s.
Proof.
  unfold writeName. destruct (w2Data !! "employeeName") as [[n|str]|]; try discriminate.
  - intros _. cbn [truthy asString]. destruct (truthyNum n && _); cbn; by intros [= <-].
  - intros _. cbn. by intros [= <-].
Qed.

Lemma writeSSN_needs_text w2Data s s1 :
  isText (w2Data !! "employeeSSN") = false -> writeSSN w2Data s = Returns s1 -> s1 = s.
Proof.
  unfold writeSSN, formatSSN.
  destruct (w2Data !! "employeeSSN") as [[n|str]|]; try discriminate.
  - intros _. cbn [truthy asString]. destruct (truthyNum n); cbn; [|by intros [= <-]].
    destruct (negb _); cbn; by intros [= <-].
  - intros _. cbn. by intros [= <-].
Qed.

Lemma writeAddress_needs_text w2Data s s1 :
  isText (w2Data !! "employeeAddress") = false -> writeAddress w2Data s = Returns s1 -> s1 = s.
Proof.
  unfold writeAddress, parseAddress.
  destruct (w2Data !! "employeeAddress") as [[n|str]|]; try discriminate.
  - intros _. cbn [truthy asString]. destruct (truthyNum n && _); cbn; by intros [= <-].
  - intros _. cbn. by intros [= <-].
Qed.

(** X18. For a bag made by [processW2Fields] from base data without
    [employeeName], [employeeSSN] and [employeeAddress], a call of
    [mapW2ToForm1040] that returns leaves every string property of the
    existing record as it is: the identity fields are never filled from
    such a bag. *)
Theorem extracted_identity_never_mapped fields baseData R M :
  baseData !! "employeeName" = None ->
  baseData !! "employeeSSN" = None ->
  baseData !! "employeeAddress" = None ->
  mergeW2 (processW2Fields fields baseData) R = Returns M ->
  strs M = strs R.
Proof.
  intros Hn Hs Ha HM%mergeW2_strs.
  destruct (personalStrs_inv _ _ _ HM) as (s1 & s2 & H1 & H2 & H3).
  apply writeName_needs_text in H1;
    [|by apply (processed_not_text _ _ "Employee.Name"); [in_keys|]].
  apply writeSSN_needs_text in H2;
    [|by apply (processed_not_text _ _ "Employee.SSN"); [in_keys|]].
  apply writeAddress_needs_text in H3;
    [|by apply (processed_not_text _ _ "Employee.Address"); [in_keys|]].
  congruence.
Qed.

Lemma extracted_identity_never_mapped_witness :
  let M := returned (mergeW2 (processW2Fields azureFields azureBase) exampleExisting) in
  strs M = strs exampleExisting.
Proof.
  intros M.
  apply (extracted_identity_never_mapped azureFields azureBase exampleExisting M);
    vm_compute; reflexivity.
Defined.

Lemma spreadBoth_merged w2Data R M :
  mergeW2 w2Data R = Returns M -> spreadBoth R M = M.
Proof.
  intros HM. destruct M as [s n]. unfold spreadBoth. cbn [strs nums]. f_equal.
  - apply map_eq. intros k. rewrite lookup_union.
    pose proof (mergeW2_keeps_strs _ _ _ k HM) as Hk. cbn [strs] in Hk.
    destruct (s !! k), (strs R !! k); try done. by destruct Hk.
  - apply map_eq. intros k. rewrite lookup_union.
    pose proof (mergeW2_keeps_nums _ _ _ k HM) as Hk. cbn [nums] in Hk.
    destruct (n !! k), (nums R !! k); try done. by destruct Hk.
Qed.

(** X19. The handler's [{ ...form1040Data, ...mappedData }] is
    [mappedData] itself, since the mapper's result already carries every
    property of the record it was given; so one round of the loop hands
    the mapper's result on to the next document. *)
Theorem respread_changes_nothing w2Data R M :
  mergeW2 w2Data R = Returns M ->
  spreadBoth R M = M /\
  forall rest w2MappingData,
    w2Loop (Some w2Data :: rest) R w2MappingData =
    (mappingSummary ← createMappingSummary w2Data;
     w2Loop rest M (w2MappingData ++ [mappingSummary])).
Proof.
  intros HM. split; [by apply (spreadBoth_merged w2Data)|].
  intros rest w2MappingData. cbn [w2Loop]. rewrite HM. cbn [mbind Outcome_bind].
  by rewrite (spreadBoth_merged _ _ _ HM).
Qed.

Lemma respread_changes_nothing_witness :
  let M := returned (mergeW2 exampleW2 exampleExisting) in
  spreadBoth exampleExisting M = M.
Proof.
  intros M.
  apply (proj1 (respread_changes_nothing exampleW2 exampleExisting M
                  ltac:(vm_compute; reflexivity))).
Defined.

Lemma merge_without_status w2Data R M :
  mergeW2 w2Data R = Returns M ->
  strs R !! "filingStatus" = None -> nums R !! "line12" = None -> nums R !! "line13" = None ->
  strs M !! "filingStatus" = None /\ nums M !! "line12" = None /\ nums M !! "line13" = None /\
  nums M !! "line15" = Some (Math_max 0 (orZero (nums M !! "line11"))).
Proof.
  intros HM Hfs H12 H13.
  pose proof (mergeW2_filingStatus _ _ _ HM) as Efs. rewrite Hfs in Efs.
  split; [done|].
  rewrite (mergeW2_nums _ _ _ HM), Efs.
  set (n := incomeNums w2Data (nums R)).
  assert (n !! "line12" = None) as Hn12 by (unfold n; by rewrite incomeNums_other).
  assert (n !! "line13" = None) as Hn13 by (unfold n; by rewrite incomeNums_other).
  assert (line12Of None n = None) as H12Of by (unfold line12Of, standardDeductionApplies; by rewrite Hn12).
  rewrite derivedNums_line12, derivedNums_line15, derivedNums_line11, H12Of.
  rewrite (derivedNums_other _ n "line13") by (by apply not_in_derivedKeys).
  split; [done|]. split; [done|].
  unfold line15Of. rewrite H12Of, Hn13. cbn [orZero]. by rewrite !sub_zero_r.
Qed.

(** X20. The handler's loop starts from the empty record, so when it
    returns the record has no filing status and no line 12; after at least
    one processed document line 15 is [Math.max(0, line11)]; and there is
    one mapping summary per document with extracted data. *)
Theorem w2Loop_never_applies_deduction w2Documents form1040Data w2MappingData :
  w2Loop w2Documents emptyForm [] = Returns (form1040Data, w2MappingData) ->
  strs form1040Data !! "filingStatus" = None /\
  nums form1040Data !! "line12" = None /\
  (w2MappingData <> [] ->
   nums form1040Data !! "line15" =
     Some (Math_max 0 (orZero (nums form1040Data !! "line11")))) /\
  length w2MappingData = length (omap id w2Documents).
Proof.
  assert (forall docs form0 data0 form data,
            w2Loop docs form0 data0 = Returns (form, data) ->
            strs form0 !! "filingStatus" = None -> nums form0 !! "line12" = None ->
            nums form0 !! "line13" = None ->
            (data0 <> [] -> nums form0 !! "line15" =
                              Some (Math_max 0 (orZero (nums form0 !! "line11")))) ->
            strs form !! "filingStatus" = None /\ nums form !! "line12" = None /\
            (data <> [] -> nums form !! "line15" =
                             Some (Math_max 0 (orZero (nums form !! "line11")))) /\
            length data = (length data0 + length (omap id docs))%nat) as Hgen.
  { induction docs as [|[d|] docs IH]; intros form0 data0 form data Hrun Hfs H12 H13 H15.
    - cbn in Hrun. injection Hrun as <- <-.
      repeat split; try done; cbn; lia.
    - cbn [w2Loop] in Hrun.
      destruct (mergeW2 d form0) as [M|] eqn:HM; cbn [mbind Outcome_bind] in Hrun;
        [|discriminate].
      rewrite (spreadBoth_merged _ _ _ HM) in Hrun.
      destruct (createMappingSummary d) as [summary|]; cbn [mbind Outcome_bind] in Hrun;
        [|discriminate].
      destruct (merge_without_status _ _ _ HM Hfs H12 H13) as (Mfs & M12 & M13 & M15).
      destruct (IH _ _ _ _ Hrun Mfs M12 M13 (fun _ => M15)) as (?&?&?&Hlen).
      repeat split; try done. rewrite Hlen, length_app. cbn. lia.
    - cbn [w2Loop] in Hrun. by apply (IH _ _ _ _ Hrun). }
  intros Hrun.
  destruct (Hgen _ _ _ _ _ Hrun) as (?&?&?&?); done.
Qed.

Lemma w2Loop_never_applies_deduction_witness :
  let result := match w2Loop loopDocuments emptyForm [] with
                | Returns p => p
                | Throws _ => (emptyForm, [])
                end in
  nums result.1 !! "line12" = None /\ length result.2 = 2%nat.
Proof.
  intros result.
  destruct (w2Loop_never_applies_deduction loopDocuments result.1 result.2)
    as (_ & Hline12 & _ & Hlength); [vm_compute; reflexivity|].
  split; [exact Hline12 | exact Hlength].
Defined.

Lemma mapW2ToForm1040_run_none w2Data (h : Heap) :
  let l := fresh (dom h) in
  mapW2ToForm1040 w2Data None h =
  (match mapW2ToForm1040_body w2Data emptyForm with
   | (Returns _, _) => Returns l
   | (Throws e, _) => Throws e
   end,
   <[l := snd (mapW2ToForm1040_body w2Data emptyForm)]> (<[l := emptyForm]> h)).
Proof.
  cbv zeta. unfold mapW2ToForm1040, spread, onObject.
  unfold mbind, HeapM_bind. rewrite lookup_insert_eq. cbn [default from_option id].
  destruct (mapW2ToForm1040_body w2Data emptyForm) as [[[]|e] o']; reflexivity.
Qed.

(** X21. A call without an existing record leaves every object of the
    heap as it is and, when it returns, returns a new object that holds
    the merge of the document into the empty record. *)
Theorem omitted_record_is_empty_record w2Data (h : Heap) r h' :
  mapW2ToForm1040 w2Data None h = (r, h') ->
  (forall l o, h !! l = Some o -> h' !! l = Some o) /\
  (forall l, r = Returns l ->
     h !! l = None /\ exists M, mergeW2 w2Data emptyForm = Returns M /\ h' !! l = Some M).
Proof.
  intros Hrun. rewrite mapW2ToForm1040_run_none in Hrun. cbv zeta in Hrun.
  injection Hrun as Hr Hh.
  assert (h !! fresh (dom h) = None) as Hfresh by (apply not_elem_of_dom, is_fresh).
  split.
  - intros l o Hl. subst h'. rewrite insert_insert_eq.
    rewrite lookup_insert_ne; [done|]. intros Heq. rewrite <- Heq in Hl. congruence.
  - intros l ->. unfold mergeW2.
    destruct (mapW2ToForm1040_body w2Data emptyForm) as [[[]|e] o']; [|discriminate].
    injection Hr as <-. split; [done|].
    exists o'. split; [done|]. subst h'. cbn. by rewrite lookup_insert_eq.
Qed.

Lemma omitted_record_is_empty_record_witness :
  snd (mapW2ToForm1040 exampleW2 None exampleHeap) !! 1%positive = Some exampleExisting.
Proof.
  assert (exampleHeap !! 1%positive = Some exampleExisting) as Hex
    by (vm_compute; reflexivity).
  exact (proj1 (omitted_record_is_empty_record exampleW2 exampleHeap _ _
                  (surjective_pairing _)) 1%positive exampleExisting Hex).
Defined.

(** *** The extraction feeding the mapper *)

Lemma processed_lookup fields baseData a m :
  (a, m) ∈ w2FieldMappings ->
  processW2Fields fields baseData !! m =
  match fields !! a with
  | Some value => Some (VNum (serviceParseAmount value))
  | None => baseData !! m
  end.
Proof. intros Hin. by apply foldl_mapField_mapped; [apply w2FieldMappings_NoDup|]. Qed.

Lemma processed_other fields baseData k :
  k ∉ map snd w2FieldMappings -> processW2Fields fields baseData !! k = baseData !! k.
Proof. apply foldl_mapField_other. Qed.

Lemma mergeW2_throws_on_identifier w2Data R :
  isTruthyNumber (w2Data !! "employeeSSN") = true ->
  truthyStrO (strs R !! "ssn") = false ->
  exists e, mergeW2 w2Data R = Throws e.
Proof.
  intros Hn Hs. destruct (mergeW2 w2Data R) as [M|e] eqn:HM; [|eauto].
  apply mergeW2_strs in HM.
  destruct (personalStrs_inv _ _ _ HM) as (s1 & s2 & H1 & H2 & _).
  pose proof (writeSSN_outcome w2Data s1) as Hout.
  rewrite (writeName_other _ _ _ "ssn" H1), Hn, Hs in Hout by done.
  destruct Hout as [e He]. congruence.
Qed.

(** X22. When the extracted [Employee.SSN] has a value that
    [parseAmount] turns into a number other than [0] (a number, or text
    that starts with a non-zero numeral, such as ["123-45-6789"]), the bag
    [processW2Fields] makes cannot be summarised or mapped:
    [createMappingSummary] throws, [mapW2ToForm1040] throws for every
    record without an identifier, and the handler's loop throws on such a
    document. *)
Theorem extracted_identifier_raises fields baseData value :
  fields !! "Employee.SSN" = Some value ->
  truthyNum (serviceParseAmount value) = true ->
  (exists e, createMappingSummary (processW2Fields fields baseData) = Throws e) /\
  (forall R, truthyStrO (strs R !! "ssn") = false ->
     exists e, mergeW2 (processW2Fields fields baseData) R = Throws e) /\
  (forall rest, exists e,
     w2Loop (Some (processW2Fields fields baseData) :: rest) emptyForm [] = Throws e).
Proof.
  intros Hv Ht.
  assert (processW2Fields fields baseData !! "employeeSSN" =
          Some (VNum (serviceParseAmount value))) as Hssn.
  { rewrite (processed_lookup _ _ "Employee.SSN") by in_keys. by rewrite Hv. }
  assert (isTruthyNumber (processW2Fields fields baseData !! "employeeSSN") = true) as Hn
    by (by rewrite Hssn).
  split; [|split].
  - unfold createMappingSummary. rewrite Hssn. cbn [truthy]. rewrite Ht.
    destruct (formatSSN_throws _ Hn) as [e He]. rewrite Hssn in He. rewrite He.
    cbn. eauto.
  - intros R HR. by apply mergeW2_throws_on_identifier.
  - intros rest. cbn [w2Loop].
    destruct (mergeW2_throws_on_identifier _ emptyForm Hn) as [e ->]; [done|].
    cbn. eauto.
Qed.

Lemma extracted_identifier_raises_witness :
  exists e, createMappingSummary (processW2Fields azureFieldsWithIdentifier azureBase) = Throws e.
Proof.
  apply (proj1 (extracted_identifier_raises azureFieldsWithIdentifier azureBase
                  (AzStr "123-45-6789") ltac:(vm_compute; reflexivity)
                  ltac:(vm_compute; reflexivity))).
Defined.

(** X23. When the extracted [Employee.Name] has a value that
    [parseAmount] turns into [0] (any text that does not start with a
    numeral) and the base data has no [firstName] and [lastName],
    [validateW2DataForMapping] rejects the bag [processW2Fields] makes,
    with the error that the employee name is missing. *)
Theorem extracted_name_not_recognised fields baseData value :
  fields !! "Employee.Name" = Some value ->
  truthyNum (serviceParseAmount value) = false ->
  baseData !! "firstName" = None ->
  baseData !! "lastName" = None ->
  let result := validateW2DataForMapping (processW2Fields fields baseData) in
  isValid result = false /\
  "Employee name is required but not found" ∈ errors result.
Proof.
  intros Hv Ht Hf Hl. cbv zeta. unfold validateW2DataForMapping.
  rewrite (processed_lookup _ _ "Employee.Name" "employeeName") by in_keys.
  rewrite (processed_other _ _ "firstName"), (processed_other _ _ "lastName")
    by (cbn [map snd w2FieldMappings]; not_in_keys).
  rewrite Hv, Hf, Hl. cbn [truthy]. rewrite Ht. cbn [negb andb].
  destruct (negb _ && negb _), (negb _ && negb _); cbn; split; try done;
    rewrite ?elem_of_cons; auto 6.
Qed.

Lemma extracted_name_not_recognised_witness :
  isValid (validateW2DataForMapping (processW2Fields azureFields azureBase)) = false.
Proof.
  apply (extracted_name_not_recognised azureFields azureBase (AzStr "John Smith"));
    vm_compute; reflexivity.
Defined.
